(** * A model of the mdse indexer, search service and highlighter

    Python strings are modelled as lists of Unicode code points ([list Z]).
    The SQLite tables [docs] and [docs_fts] are modelled as lists of rows,
    together with the connection's [sqlite3_last_insert_rowid] counter. *)

From Stdlib Require Import ZArith List Bool Lia Sorting.Permutation Sorting.Sorted.
From Stdlib Require Import String Ascii.
Import ListNotations.
Open Scope Z_scope.

Abbreviation pystr := (list Z).

(** ASCII string literal as code points (used for test inputs). *)
Definition s2z (s : string) : pystr :=
  map (fun a => Z.of_nat (nat_of_ascii a)) (list_ascii_of_string s).

(** ** Python whitespace *)

(** [str.isspace] for one code point: the set used by [str.split()] and
    [str.strip()] without arguments. *)
Definition py_isspace (c : Z) : bool :=
  ((9 <=? c) && (c <=? 13)) || ((28 <=? c) && (c <=? 32)) ||
  (c =? 133) || (c =? 160) || (c =? 5760) ||
  ((8192 <=? c) && (c <=? 8202)) || (c =? 8232) || (c =? 8233) ||
  (c =? 8239) || (c =? 8287) || (c =? 12288).

(** [c in ' \t\n\r'] *)
Definition in_ws4 (c : Z) : bool :=
  (c =? 32) || (c =? 9) || (c =? 10) || (c =? 13).

(** [str.split()] with no separator: maximal runs of non-whitespace.
    [cur] is the current word, reversed. *)
Fixpoint split_go (cur : pystr) (s : pystr) : list pystr :=
  match s with
  | [] => match cur with [] => [] | _ => [rev cur] end
  | c :: s' =>
      if py_isspace c then
        match cur with
        | [] => split_go [] s'
        | _ => rev cur :: split_go [] s'
        end
      else split_go (c :: cur) s'
  end.

Definition py_split (s : pystr) : list pystr := split_go [] s.

Fixpoint py_lstrip (s : pystr) : pystr :=
  match s with
  | [] => []
  | c :: s' => if py_isspace c then py_lstrip s' else s
  end.

Definition py_rstrip (s : pystr) : pystr := rev (py_lstrip (rev s)).

(** [str.strip()] *)
Definition py_strip (s : pystr) : pystr := py_rstrip (py_lstrip s).

(** [result[-1]] for a non-empty list. *)
Definition py_last (r : pystr) : Z := last r 0.

Definition nonempty {A} (l : list A) : bool :=
  match l with [] => false | _ => true end.

(** ** The segmenters *)

(** [is_cjk = '一' <= char <= '鿿'] *)
Definition is_cjk (c : Z) : bool := (19968 <=? c) && (c <=? 40959).

(** One iteration of the loop of [indexer._segment_chinese_text];
    the state is [(prev_is_cjk, result)]. *)
Definition seg_text_step (st : bool * pystr) (char : Z) : bool * pystr :=
  let '(prev_is_cjk, result) := st in
  let cjk := is_cjk char in
  let is_whitespace := in_ws4 char in
  let result :=
    if prev_is_cjk && negb cjk && negb is_whitespace && nonempty result
       && negb (py_last result =? 32)
    then result ++ [32]
    else if negb prev_is_cjk && cjk && nonempty result
            && negb (in_ws4 (py_last result))
    then result ++ [32]
    else result in
  let result := result ++ [char] in
  let result := if cjk && negb is_whitespace then result ++ [32] else result in
  (cjk, result).

(** [indexer._segment_chinese_text] *)
Definition _segment_chinese_text (text : pystr) : pystr :=
  match text with
  | [] => text
  | _ => snd (fold_left seg_text_step text (false, []))
  end.

(** One iteration of the loop of [search_service._segment_chinese_query]. *)
Definition seg_query_step (st : bool * pystr) (char : Z) : bool * pystr :=
  let '(prev_is_cjk, result) := st in
  let cjk := is_cjk char in
  let result :=
    if prev_is_cjk && negb cjk && negb (in_ws4 char)
    then result ++ [32]
    else if negb prev_is_cjk && cjk && nonempty result
            && negb (in_ws4 (py_last result))
    then result ++ [32]
    else result in
  let result := result ++ [char] in
  let result := if cjk then result ++ [32] else result in
  (cjk, result).

(** [search_service._segment_chinese_query] *)
Definition _segment_chinese_query (query : pystr) : pystr :=
  match query with
  | [] => query
  | _ => py_strip (snd (fold_left seg_query_step query (false, [])))
  end.

(** Code points used in the examples: 机 器 学 习 *)
Definition ji : Z := 26426.
Definition qi : Z := 22120.
Definition xue : Z := 23398.
Definition xi : Z := 20064.

Definition python_ml : pystr := s2z "Python" ++ [ji; qi; xue; xi].

Example seg_query_python_ml :
  _segment_chinese_query python_ml = s2z "Python " ++ [ji; 32; qi; 32; xue; 32; xi].
Proof. vm_compute. reflexivity. Qed.

(** ** Lemmas on [str.split()] *)

Lemma py_isspace_32 : py_isspace 32 = true.
Proof. reflexivity. Qed.

Lemma split_go_space_nil c s :
  py_isspace c = true -> split_go [] (c :: s) = split_go [] s.
Proof. intros H. simpl. rewrite H. reflexivity. Qed.

(** Two adjacent separators split like one. *)
Lemma split_go_dup_space cur a c d t :
  py_isspace c = true -> py_isspace d = true ->
  split_go cur (a ++ c :: d :: t) = split_go cur (a ++ c :: t).
Proof.
  intros Hc Hd. revert cur.
  induction a as [|x a IH]; intros cur; simpl.
  - rewrite Hc, Hd.
    destruct cur; reflexivity.
  - destruct (py_isspace x).
    + destruct cur; rewrite IH; reflexivity.
    + apply IH.
Qed.

(** Trailing separators do not change the split. *)
Lemma split_go_trailing cur s w :
  Forall (fun c => py_isspace c = true) w ->
  split_go cur (s ++ w) = split_go cur s.
Proof.
  intros Hw. revert cur.
  induction s as [|x s IH]; intros cur; simpl.
  - induction Hw as [|c w Hc Hw IHw]; [reflexivity|].
    simpl. rewrite Hc.
    assert (E : split_go [] w = []).
    { clear IHw. induction Hw as [|c' w' Hc' Hw' IH']; [reflexivity|].
      simpl. rewrite Hc'. exact IH'. }
    rewrite E. destruct cur; reflexivity.
  - destruct (py_isspace x); [destruct cur; rewrite IH; reflexivity|apply IH].
Qed.

Lemma lstrip_decomp s :
  exists w, Forall (fun c => py_isspace c = true) w /\ s = w ++ py_lstrip s.
Proof.
  induction s as [|c s IH]; simpl.
  - exists []. auto.
  - case_eq (py_isspace c); intros Hc.
    + destruct IH as [w [Hw E]]. exists (c :: w). split; [constructor; auto|].
      simpl. rewrite <- E. reflexivity.
    + exists []. auto.
Qed.

Lemma split_lstrip s : py_split (py_lstrip s) = py_split s.
Proof.
  unfold py_split. induction s as [|c s IH]; simpl; [reflexivity|].
  case_eq (py_isspace c); intros Hc; [exact IH|].
  simpl. rewrite Hc. reflexivity.
Qed.

Lemma split_rstrip s : py_split (py_rstrip s) = py_split s.
Proof.
  unfold py_rstrip, py_split.
  destruct (lstrip_decomp (rev s)) as [w [Hw E]].
  assert (Es : s = rev (py_lstrip (rev s)) ++ rev w).
  { rewrite <- rev_app_distr, <- E, rev_involutive. reflexivity. }
  rewrite Es at 2. rewrite split_go_trailing; [reflexivity|].
  apply Forall_rev. exact Hw.
Qed.

Lemma split_strip s : py_split (py_strip s) = py_split s.
Proof. unfold py_strip. rewrite split_rstrip, split_lstrip. reflexivity. Qed.

(** ** Index-side and query-side segmentation agree up to separators *)

Definition split_equiv (r1 r2 : pystr) : Prop :=
  forall t, py_split (r1 ++ t) = py_split (r2 ++ t).

Lemma split_equiv_app r1 r2 x :
  split_equiv r1 r2 -> split_equiv (r1 ++ x) (r2 ++ x).
Proof. intros H t. rewrite <- !app_assoc. apply H. Qed.

Lemma split_after_space (r t : pystr) :
  nonempty r = true -> py_last r = 32 ->
  py_split (r ++ 32 :: t) = py_split (r ++ t).
Proof.
  intros Hn Hl. unfold py_last in Hl.
  assert (Hr : r <> []) by (destruct r; discriminate).
  rewrite (app_removelast_last 0 Hr), Hl, <- !app_assoc. simpl.
  unfold py_split. apply split_go_dup_space; reflexivity.
Qed.

Lemma py_last_snoc r x : py_last (r ++ [x]) = x.
Proof. unfold py_last. apply last_last. Qed.

Lemma nonempty_snoc (r : pystr) x : nonempty (r ++ [x]) = true.
Proof. destruct r; reflexivity. Qed.

Lemma cjk_not_ws4 c : is_cjk c = true -> in_ws4 c = false.
Proof.
  unfold is_cjk, in_ws4. intros H. apply andb_prop in H as [H1 H2].
  apply Z.leb_le in H1. apply Z.leb_le in H2.
  repeat (apply orb_false_intro); apply Z.eqb_neq; lia.
Qed.

(** The simulation invariant between the two loops. *)
Definition seg_inv (p : bool) (r1 r2 : pystr) : Prop :=
  split_equiv r1 r2 /\ nonempty r1 = nonempty r2 /\ py_last r1 = py_last r2 /\
  (p = true -> nonempty r1 = true /\ py_last r1 = 32).

Lemma seg_step_inv p r1 r2 c :
  seg_inv p r1 r2 ->
  fst (seg_text_step (p, r1) c) = fst (seg_query_step (p, r2) c) /\
  seg_inv (fst (seg_text_step (p, r1) c))
          (snd (seg_text_step (p, r1) c)) (snd (seg_query_step (p, r2) c)).
Proof.
  intros (He & Hn & Hl & Hp). unfold seg_text_step, seg_query_step.
  destruct (is_cjk c) eqn:Hcj.
  - rewrite (cjk_not_ws4 c Hcj). simpl andb. simpl negb.
    destruct p; simpl.
    + repeat rewrite andb_false_r. simpl. split; [reflexivity|].
      repeat split; rewrite ?nonempty_snoc, ?py_last_snoc; try reflexivity.
      apply split_equiv_app. apply split_equiv_app. exact He.
    + rewrite Hn, Hl.
      destruct (nonempty r2 && negb (in_ws4 (py_last r2))); simpl;
        split; try reflexivity;
        repeat split; rewrite ?nonempty_snoc, ?py_last_snoc; try reflexivity;
        repeat apply split_equiv_app; exact He.
  - simpl negb. destruct p; simpl.
    + destruct (Hp eq_refl) as [Hn1 Hl1]. rewrite Hn1, Hl1. simpl.
      rewrite ?andb_false_r. simpl. split; [reflexivity|].
      destruct (in_ws4 c); simpl.
      * repeat split; rewrite ?nonempty_snoc, ?py_last_snoc; try reflexivity;
          try discriminate. apply split_equiv_app. exact He.
      * repeat split; rewrite ?nonempty_snoc, ?py_last_snoc; try reflexivity;
          try discriminate.
        intros t. rewrite <- !app_assoc. simpl.
        rewrite He. apply eq_sym. apply split_after_space; congruence.
    + rewrite ?andb_false_r. split; [reflexivity|].
      repeat split; rewrite ?nonempty_snoc, ?py_last_snoc; try reflexivity;
        try discriminate. apply split_equiv_app. exact He.
Qed.

Lemma seg_fold_inv s p r1 r2 :
  seg_inv p r1 r2 ->
  fst (fold_left seg_text_step s (p, r1)) = fst (fold_left seg_query_step s (p, r2)) /\
  seg_inv (fst (fold_left seg_text_step s (p, r1)))
          (snd (fold_left seg_text_step s (p, r1)))
          (snd (fold_left seg_query_step s (p, r2))).
Proof.
  revert p r1 r2. induction s as [|c s IH]; intros p r1 r2 H; cbn [fold_left].
  - split; [reflexivity|exact H].
  - destruct (seg_step_inv p r1 r2 c H) as [Hf Hi].
    destruct (seg_text_step (p, r1) c) as [p1 r1'] eqn:E1.
    destruct (seg_query_step (p, r2) c) as [p2 r2'] eqn:E2.
    simpl in Hf, Hi. subst p2. apply IH. exact Hi.
Qed.

(** Outside the CJK block both loops copy the input unchanged. *)
Lemma seg_text_fold_noncjk s r :
  Forall (fun c => is_cjk c = false) s ->
  fold_left seg_text_step s (false, r) = (false, r ++ s).
Proof.
  revert r. induction s as [|c s IH]; intros r H; cbn [fold_left].
  - rewrite app_nil_r. reflexivity.
  - inversion H as [|c' s' Hc Hs]; subst.
    unfold seg_text_step at 2. rewrite Hc. simpl.
    rewrite IH by exact Hs. rewrite <- app_assoc. reflexivity.
Qed.

Lemma seg_query_fold_noncjk s r :
  Forall (fun c => is_cjk c = false) s ->
  fold_left seg_query_step s (false, r) = (false, r ++ s).
Proof.
  revert r. induction s as [|c s IH]; intros r H; cbn [fold_left].
  - rewrite app_nil_r. reflexivity.
  - inversion H as [|c' s' Hc Hs]; subst.
    unfold seg_query_step at 2. rewrite Hc. simpl.
    rewrite IH by exact Hs. rewrite <- app_assoc. reflexivity.
Qed.

Lemma is_cjk_range c : is_cjk c = true <-> 19968 <= c <= 40959.
Proof.
  unfold is_cjk. rewrite andb_true_iff, !Z.leb_le. reflexivity.
Qed.

(** Code points used in the examples: 㐀 (CJK Extension A), あ (hiragana),
    豈 (CJK compatibility ideograph). *)
Definition ext_a : Z := 13312.
Definition hira_a : Z := 12354.
Definition compat_kai : Z := 63744.

(** ** The database *)

Definition pystr_eqb (a b : pystr) : bool :=
  if list_eq_dec Z.eq_dec a b then true else false.

(** A row of the [docs] table ([id INTEGER PRIMARY KEY AUTOINCREMENT,
    path TEXT UNIQUE, title, summary, mtime]); the float [mtime] is kept
    abstract as an integer. *)
Record doc_row := mkDoc {
  d_id : Z; d_path : pystr; d_title : pystr; d_summary : pystr; d_mtime : Z }.

(** A row of the FTS5 table [docs_fts(doc_id UNINDEXED, title, content, path)]
    with its rowid. *)
Record fts_row := mkFts {
  f_rowid : Z; f_doc_id : Z; f_title : pystr; f_content : pystr; f_path : pystr }.

(** The database seen through one connection: both tables, the
    [sqlite_sequence] entry of [docs] (AUTOINCREMENT), and the connection's
    [sqlite3_last_insert_rowid()], which [cursor.lastrowid] reports. *)
Record db := mkDb {
  docs : list doc_row; docs_seq : Z; fts : list fts_row; last_rowid : Z }.

Definition empty_db : db := mkDb [] 0 [] 0.

(** A new connection to the same database file. *)
Definition reconnect (d : db) : db := mkDb (docs d) (docs_seq d) (fts d) 0.

Definition max_doc_id (l : list doc_row) : Z := fold_left (fun m r => Z.max m (d_id r)) l 0.
Definition max_fts_rowid (l : list fts_row) : Z := fold_left (fun m r => Z.max m (f_rowid r)) l 0.

Definition find_path (l : list doc_row) (p : pystr) : option doc_row :=
  find (fun r => pystr_eqb (d_path r) p) l.

(** [INSERT INTO docs (path, title, summary, mtime) VALUES (?,?,?,?)
     ON CONFLICT(path) DO UPDATE SET title=..., summary=..., mtime=...].
    SQLite picks the AUTOINCREMENT id before it detects the conflict, so
    the update branch also advances [sqlite_sequence]; it inserts no row,
    so [last_insert_rowid] is unchanged. *)
Definition docs_upsert (d : db) (path title summary : pystr) (mtime : Z) : db :=
  let id := Z.max (docs_seq d) (max_doc_id (docs d)) + 1 in
  match find_path (docs d) path with
  | Some _ =>
      mkDb (map (fun r => if pystr_eqb (d_path r) path
                          then mkDoc (d_id r) (d_path r) title summary mtime else r)
                (docs d))
           id (fts d) (last_rowid d)
  | None =>
      mkDb (docs d ++ [mkDoc id path title summary mtime]) id (fts d) id
  end.

(** [SELECT id FROM docs WHERE path = ?] then [fetchone()]. *)
Definition select_id_by_path (d : db) (path : pystr) : option Z :=
  option_map d_id (find_path (docs d) path).

(** [DELETE FROM docs_fts WHERE doc_id = ?] *)
Definition fts_delete_doc (d : db) (doc_id : Z) : db :=
  mkDb (docs d) (docs_seq d) (filter (fun r => negb (f_doc_id r =? doc_id)) (fts d))
       (last_rowid d).

(** [INSERT INTO docs_fts (doc_id, title, content, path) VALUES (?,?,?,?)]:
    the new rowid is one past the largest, and becomes [last_insert_rowid]. *)
Definition fts_insert (d : db) (doc_id : Z) (title content path : pystr) : db :=
  let rid := max_fts_rowid (fts d) + 1 in
  mkDb (docs d) (docs_seq d) (fts d ++ [mkFts rid doc_id title content path]) rid.

(** [DELETE FROM docs WHERE id = ?] *)
Definition docs_delete_id (d : db) (id : Z) : db :=
  mkDb (filter (fun r => negb (d_id r =? id)) (docs d)) (docs_seq d) (fts d)
       (last_rowid d).

(** ** Files and [extract_text_from_md] *)

(** A Markdown file as [index_file] sees it: [fl_path] is [path_str] (the
    path relative to [MD_ROOT]), [fl_stem] is [path.stem], [fl_safe] says
    whether [validate_path_traversal] accepts it, [fl_parsed] is the
    frontmatter title (already passed through [str]) and [post.content],
    or [None] when reading or [frontmatter.loads] raises, and [fl_mtime]
    is [os.path.getmtime], or [None] when it raises. *)
Record md_file := mkFile {
  fl_path : pystr; fl_stem : pystr; fl_safe : bool;
  fl_parsed : option (option pystr * pystr); fl_mtime : option Z }.

(** [extract_text_from_md]: (title, title_segmented, summary, content,
    content_segmented). *)
Definition extract_text_from_md (f : md_file) : pystr * pystr * pystr * pystr * pystr :=
  match fl_parsed f with
  | Some (t, body) =>
      let title := match t with None => fl_stem f | Some t => t end in
      let content := py_strip body in
      let title_segmented := _segment_chinese_text title in
      let content_segmented := _segment_chinese_text content in
      let summary := match content with [] => [] | _ => firstn 200 content end in
      (title, title_segmented, summary, content, content_segmented)
  | None => (fl_stem f, fl_stem f, [], [], [])
  end.

(** Outcome of a call that may raise. *)
Inductive outcome := Ok (d : db) | Raised.

(** [indexer.index_file] *)
Definition index_file (d : db) (f : md_file) : outcome :=
  if negb (fl_safe f) then Ok d else
  let '(title_original, title_segmented, summary, content_original, content_segmented) :=
    extract_text_from_md f in
  match fl_mtime f with
  | None => Raised
  | Some mtime =>
      let path_str := fl_path f in
      let d1 := docs_upsert d path_str title_original summary mtime in
      let doc_id := last_rowid d1 in
      let doc_id :=
        if doc_id =? 0 then
          match select_id_by_path d1 path_str with Some i => i | None => doc_id end
        else doc_id in
      let d2 := fts_delete_doc d1 doc_id in
      Ok (fts_insert d2 doc_id title_segmented content_segmented path_str)
  end.

(** One iteration of the loop of [full_reindex]: an exception from
    [index_file] is printed and the loop continues with the next file. *)
Definition reindex_step (d : db) (f : md_file) : db :=
  match index_file d f with Ok d' => d' | Raised => d end.

Definition reindex_loop (d : db) (files : list md_file) : db :=
  fold_left reindex_step files d.

(** [indexer.full_reindex]; [files] is what [iter_md_files] yields. *)
Definition full_reindex (root_exists : bool) (d : db) (files : list md_file) : outcome :=
  let d := mkDb [] (docs_seq d) [] (last_rowid d) in
  if negb root_exists then Raised else Ok (reindex_loop d files).

(** [indexer.remove_file_from_index] *)
Definition remove_file_from_index (d : db) (path_str : pystr) : db :=
  match select_id_by_path d path_str with
  | Some doc_id => docs_delete_id (fts_delete_doc d doc_id) doc_id
  | None => d
  end.

(** ** [search_documents] *)

(** A row of the search query's result set ([SearchResult]). *)
Record search_result := mkResult {
  r_id : Z; r_title : pystr; r_path : pystr; r_snippet : pystr; r_rank : Z }.

(** [LIMIT lim OFFSET off]: a negative limit means no limit, a negative
    offset skips nothing. *)
Definition limit_offset {A} (lim off : Z) (l : list A) : list A :=
  let l := skipn (Z.to_nat off) l in
  if lim <? 0 then l else firstn (Z.to_nat lim) l.

(** [ORDER BY rank]: SQL fixes the order of rows with different ranks
    only; any such ordering of the rows may be returned. *)
Definition order_by_rank (rows out : list search_result) : Prop :=
  Permutation rows out /\ Sorted (fun a b => r_rank a <= r_rank b) out.

Section Search.

(** The FTS5 engine: [docs_fts MATCH q] on one row, [bm25(docs_fts)] of a
    row (which depends on the whole table), and [snippet(docs_fts, 2, ...)].
    Their numeric details are those of SQLite, not of this repository. *)
Variable fts_match : pystr -> fts_row -> bool.
Variable bm25 : pystr -> list fts_row -> fts_row -> Z.
Variable fts_snippet : pystr -> fts_row -> pystr.
(** [settings.default_limit] and [settings.max_search_limit]. *)
Variables default_limit max_search_limit : Z.

(** [SELECT COUNT( * ) FROM docs_fts WHERE docs_fts MATCH ?] *)
Definition match_count (d : db) (sq : pystr) : Z :=
  Z.of_nat (List.length (filter (fts_match sq) (fts d))).

(** [SELECT d.id, d.title, d.path, snippet(...), bm25(docs_fts) AS rank
     FROM docs_fts JOIN docs d ON d.id = docs_fts.doc_id
     WHERE docs_fts MATCH ?], before ordering. *)
Definition joined_rows (d : db) (sq : pystr) : list search_result :=
  flat_map (fun r =>
              map (fun x => mkResult (d_id x) (d_title x) (d_path x)
                                     (fts_snippet sq r) (bm25 sq (fts d) r))
                  (filter (fun x => d_id x =? f_doc_id r) (docs d)))
           (filter (fts_match sq) (fts d)).

(** [search_service.search_documents]: [res] is a possible return value
    [(results, total)]. *)
Definition search_documents (d : db) (query : pystr) (limit : option Z) (offset : Z)
    (res : list search_result * Z) : Prop :=
  let limit := match limit with None => default_limit | Some l => l end in
  let limit := if limit >? max_search_limit then max_search_limit else limit in
  let segmented_query := _segment_chinese_query query in
  let total := match_count d segmented_query in
  exists ordered, order_by_rank (joined_rows d segmented_query) ordered /\
    res = (limit_offset limit offset ordered, total).

End Search.

(** ** The keyword highlighter of [api.get_document] *)

(** The Unicode tables of CPython's [re] module, generated from CPython
    3.11 (Unicode 14.0.0) and checked against [re] on every code point. *)

(** [_sre.unicode_tolower], the simple lowercase mapping: the code points
    [first, first + step, ..., last] of a run [(first, last, step, delta)]
    map to [c + delta]; every other code point maps to itself. *)
Definition tolower_runs : list (Z * Z * Z * Z) :=
[
   (65, 90, 1, 32); (192, 214, 1, 32); (216, 222, 1, 32); (256, 302, 2, 1);
   (304, 304, 1, (-199)); (306, 310, 2, 1); (313, 327, 2, 1); (330, 374, 2, 1);
   (376, 376, 1, (-121)); (377, 381, 2, 1); (385, 385, 1, 210); (386, 388, 2, 1);
   (390, 390, 1, 206); (391, 391, 1, 1); (393, 394, 1, 205); (395, 395, 1, 1);
   (398, 398, 1, 79); (399, 399, 1, 202); (400, 400, 1, 203); (401, 401, 1, 1);
   (403, 403, 1, 205); (404, 404, 1, 207); (406, 406, 1, 211); (407, 407, 1, 209);
   (408, 408, 1, 1); (412, 412, 1, 211); (413, 413, 1, 213); (415, 415, 1, 214);
   (416, 420, 2, 1); (422, 422, 1, 218); (423, 423, 1, 1); (425, 425, 1, 218);
   (428, 428, 1, 1); (430, 430, 1, 218); (431, 431, 1, 1); (433, 434, 1, 217);
   (435, 437, 2, 1); (439, 439, 1, 219); (440, 440, 1, 1); (444, 444, 1, 1);
   (452, 452, 1, 2); (453, 453, 1, 1); (455, 455, 1, 2); (456, 456, 1, 1);
   (458, 458, 1, 2); (459, 475, 2, 1); (478, 494, 2, 1); (497, 497, 1, 2);
   (498, 500, 2, 1); (502, 502, 1, (-97)); (503, 503, 1, (-56)); (504, 542, 2, 1);
   (544, 544, 1, (-130)); (546, 562, 2, 1); (570, 570, 1, 10795); (571, 571, 1, 1);
   (573, 573, 1, (-163)); (574, 574, 1, 10792); (577, 577, 1, 1); (579, 579, 1, (-195));
   (580, 580, 1, 69); (581, 581, 1, 71); (582, 590, 2, 1); (880, 882, 2, 1);
   (886, 886, 1, 1); (895, 895, 1, 116); (902, 902, 1, 38); (904, 906, 1, 37);
   (908, 908, 1, 64); (910, 911, 1, 63); (913, 929, 1, 32); (931, 939, 1, 32);
   (975, 975, 1, 8); (984, 1006, 2, 1); (1012, 1012, 1, (-60)); (1015, 1015, 1, 1);
   (1017, 1017, 1, (-7)); (1018, 1018, 1, 1); (1021, 1023, 1, (-130)); (1024, 1039, 1, 80);
   (1040, 1071, 1, 32); (1120, 1152, 2, 1); (1162, 1214, 2, 1); (1216, 1216, 1, 15);
   (1217, 1229, 2, 1); (1232, 1326, 2, 1); (1329, 1366, 1, 48); (4256, 4293, 1, 7264);
   (4295, 4295, 1, 7264); (4301, 4301, 1, 7264); (5024, 5103, 1, 38864); (5104, 5109, 1, 8);
   (7312, 7354, 1, (-3008)); (7357, 7359, 1, (-3008)); (7680, 7828, 2, 1); (7838, 7838, 1, (-7615));
   (7840, 7934, 2, 1); (7944, 7951, 1, (-8)); (7960, 7965, 1, (-8)); (7976, 7983, 1, (-8));
   (7992, 7999, 1, (-8)); (8008, 8013, 1, (-8)); (8025, 8031, 2, (-8)); (8040, 8047, 1, (-8));
   (8072, 8079, 1, (-8)); (8088, 8095, 1, (-8)); (8104, 8111, 1, (-8)); (8120, 8121, 1, (-8));
   (8122, 8123, 1, (-74)); (8124, 8124, 1, (-9)); (8136, 8139, 1, (-86)); (8140, 8140, 1, (-9));
   (8152, 8153, 1, (-8)); (8154, 8155, 1, (-100)); (8168, 8169, 1, (-8)); (8170, 8171, 1, (-112));
   (8172, 8172, 1, (-7)); (8184, 8185, 1, (-128)); (8186, 8187, 1, (-126)); (8188, 8188, 1, (-9));
   (8486, 8486, 1, (-7517)); (8490, 8490, 1, (-8383)); (8491, 8491, 1, (-8262)); (8498, 8498, 1, 28);
   (8544, 8559, 1, 16); (8579, 8579, 1, 1); (9398, 9423, 1, 26); (11264, 11311, 1, 48);
   (11360, 11360, 1, 1); (11362, 11362, 1, (-10743)); (11363, 11363, 1, (-3814)); (11364, 11364, 1, (-10727));
   (11367, 11371, 2, 1); (11373, 11373, 1, (-10780)); (11374, 11374, 1, (-10749)); (11375, 11375, 1, (-10783));
   (11376, 11376, 1, (-10782)); (11378, 11378, 1, 1); (11381, 11381, 1, 1); (11390, 11391, 1, (-10815));
   (11392, 11490, 2, 1); (11499, 11501, 2, 1); (11506, 11506, 1, 1); (42560, 42604, 2, 1);
   (42624, 42650, 2, 1); (42786, 42798, 2, 1); (42802, 42862, 2, 1); (42873, 42875, 2, 1);
   (42877, 42877, 1, (-35332)); (42878, 42886, 2, 1); (42891, 42891, 1, 1); (42893, 42893, 1, (-42280));
   (42896, 42898, 2, 1); (42902, 42920, 2, 1); (42922, 42922, 1, (-42308)); (42923, 42923, 1, (-42319));
   (42924, 42924, 1, (-42315)); (42925, 42925, 1, (-42305)); (42926, 42926, 1, (-42308)); (42928, 42928, 1, (-42258));
   (42929, 42929, 1, (-42282)); (42930, 42930, 1, (-42261)); (42931, 42931, 1, 928); (42932, 42946, 2, 1);
   (42948, 42948, 1, (-48)); (42949, 42949, 1, (-42307)); (42950, 42950, 1, (-35384)); (42951, 42953, 2, 1);
   (42960, 42960, 1, 1); (42966, 42968, 2, 1); (42997, 42997, 1, 1); (65313, 65338, 1, 32);
   (66560, 66599, 1, 40); (66736, 66771, 1, 40); (66928, 66938, 1, 39); (66940, 66954, 1, 39);
   (66956, 66962, 1, 39); (66964, 66965, 1, 39); (68736, 68786, 1, 64); (71840, 71871, 1, 32);
   (93760, 93791, 1, 32); (125184, 125217, 1, 34)].

Definition unicode_tolower (c : Z) : Z :=
  match find (fun '(a, b, st, _) => (a <=? c) && (c <=? b) && (Z.modulo (c - a) st =? 0))
             tolower_runs with
  | Some (_, _, _, dl) => c + dl
  | None => c
  end.

Definition in_ranges (c : Z) (l : list (Z * Z)) : bool :=
  existsb (fun '(a, b) => (a <=? c) && (c <=? b)) l.

(** [_sre.unicode_iscased]: the code points that differ from their simple
    lowercase or uppercase mapping. *)
Definition cased_ranges : list (Z * Z) :=
[
   (65, 90); (97, 122); (181, 181); (192, 214); (216, 246); (248, 311);
   (313, 396); (398, 410); (412, 425); (428, 441); (444, 445); (447, 447);
   (452, 544); (546, 563); (570, 596); (598, 599); (601, 601); (603, 604);
   (608, 609); (611, 611); (613, 614); (616, 620); (623, 623); (625, 626);
   (629, 629); (637, 637); (640, 640); (642, 643); (647, 652); (658, 658);
   (669, 670); (837, 837); (880, 883); (886, 887); (891, 893); (895, 895);
   (902, 902); (904, 906); (908, 908); (910, 929); (931, 977); (981, 1013);
   (1015, 1019); (1021, 1153); (1162, 1327); (1329, 1366); (1377, 1415); (4256, 4293);
   (4295, 4295); (4301, 4301); (4304, 4346); (4349, 4351); (5024, 5109); (5112, 5117);
   (7296, 7304); (7312, 7354); (7357, 7359); (7545, 7545); (7549, 7549); (7566, 7566);
   (7680, 7835); (7838, 7838); (7840, 7957); (7960, 7965); (7968, 8005); (8008, 8013);
   (8016, 8023); (8025, 8025); (8027, 8027); (8029, 8029); (8031, 8061); (8064, 8116);
   (8118, 8124); (8126, 8126); (8130, 8132); (8134, 8140); (8144, 8147); (8150, 8155);
   (8160, 8172); (8178, 8180); (8182, 8188); (8486, 8486); (8490, 8491); (8498, 8498);
   (8526, 8526); (8544, 8575); (8579, 8580); (9398, 9449); (11264, 11376); (11378, 11379);
   (11381, 11382); (11390, 11491); (11499, 11502); (11506, 11507); (11520, 11557); (11559, 11559);
   (11565, 11565); (42560, 42605); (42624, 42651); (42786, 42799); (42802, 42863); (42873, 42887);
   (42891, 42893); (42896, 42900); (42902, 42926); (42928, 42954); (42960, 42961); (42966, 42969);
   (42997, 42998); (43859, 43859); (43888, 43967); (64256, 64262); (64275, 64279); (65313, 65338);
   (65345, 65370); (66560, 66639); (66736, 66771); (66776, 66811); (66928, 66938); (66940, 66954);
   (66956, 66962); (66964, 66965); (66967, 66977); (66979, 66993); (66995, 67001); (67003, 67004);
   (68736, 68786); (68800, 68850); (71840, 71903); (93760, 93823); (125184, 125251)].

Definition unicode_iscased (c : Z) : bool := in_ranges c cased_ranges.

(** [re._casefix._EXTRA_CASES]: lowercase code points that also match
    other lowercase code points under [re.IGNORECASE]. *)
Definition _EXTRA_CASES : list (Z * list Z) :=
[
   (105, [305]); (115, [383]); (181, [956]); (305, [105]); (383, [115]);
   (837, [953; 8126]); (912, [8147]); (944, [8163]); (946, [976]); (949, [1013]);
   (952, [977]); (953, [837; 8126]); (954, [1008]); (956, [181]); (960, [982]);
   (961, [1009]); (962, [963]); (963, [962]); (966, [981]); (976, [946]);
   (977, [952]); (981, [966]); (982, [960]); (1008, [954]); (1009, [961]);
   (1013, [949]); (1074, [7296]); (1076, [7297]); (1086, [7298]); (1089, [7299]);
   (1090, [7300; 7301]); (1098, [7302]); (1123, [7303]); (7296, [1074]); (7297, [1076]);
   (7298, [1086]); (7299, [1089]); (7300, [1090; 7301]); (7301, [1090; 7300]); (7302, [1098]);
   (7303, [1123]); (7304, [42571]); (7777, [7835]); (7835, [7777]); (8126, [837; 953]);
   (8147, [912]); (8163, [944]); (42571, [7304]); (64261, [64262]); (64262, [64261])].

(** [\w] of [re] on [str] ([SRE_UNI_IS_WORD]: [str.isalnum()] or [_]). *)
Definition word_ranges : list (Z * Z) :=
[
   (48, 57); (65, 90); (95, 95); (97, 122); (170, 170); (178, 179);
   (181, 181); (185, 186); (188, 190); (192, 214); (216, 246); (248, 705);
   (710, 721); (736, 740); (748, 748); (750, 750); (880, 884); (886, 887);
   (890, 893); (895, 895); (902, 902); (904, 906); (908, 908); (910, 929);
   (931, 1013); (1015, 1153); (1162, 1327); (1329, 1366); (1369, 1369); (1376, 1416);
   (1488, 1514); (1519, 1522); (1568, 1610); (1632, 1641); (1646, 1647); (1649, 1747);
   (1749, 1749); (1765, 1766); (1774, 1788); (1791, 1791); (1808, 1808); (1810, 1839);
   (1869, 1957); (1969, 1969); (1984, 2026); (2036, 2037); (2042, 2042); (2048, 2069);
   (2074, 2074); (2084, 2084); (2088, 2088); (2112, 2136); (2144, 2154); (2160, 2183);
   (2185, 2190); (2208, 2249); (2308, 2361); (2365, 2365); (2384, 2384); (2392, 2401);
   (2406, 2415); (2417, 2432); (2437, 2444); (2447, 2448); (2451, 2472); (2474, 2480);
   (2482, 2482); (2486, 2489); (2493, 2493); (2510, 2510); (2524, 2525); (2527, 2529);
   (2534, 2545); (2548, 2553); (2556, 2556); (2565, 2570); (2575, 2576); (2579, 2600);
   (2602, 2608); (2610, 2611); (2613, 2614); (2616, 2617); (2649, 2652); (2654, 2654);
   (2662, 2671); (2674, 2676); (2693, 2701); (2703, 2705); (2707, 2728); (2730, 2736);
   (2738, 2739); (2741, 2745); (2749, 2749); (2768, 2768); (2784, 2785); (2790, 2799);
   (2809, 2809); (2821, 2828); (2831, 2832); (2835, 2856); (2858, 2864); (2866, 2867);
   (2869, 2873); (2877, 2877); (2908, 2909); (2911, 2913); (2918, 2927); (2929, 2935);
   (2947, 2947); (2949, 2954); (2958, 2960); (2962, 2965); (2969, 2970); (2972, 2972);
   (2974, 2975); (2979, 2980); (2984, 2986); (2990, 3001); (3024, 3024); (3046, 3058);
   (3077, 3084); (3086, 3088); (3090, 3112); (3114, 3129); (3133, 3133); (3160, 3162);
   (3165, 3165); (3168, 3169); (3174, 3183); (3192, 3198); (3200, 3200); (3205, 3212);
   (3214, 3216); (3218, 3240); (3242, 3251); (3253, 3257); (3261, 3261); (3293, 3294);
   (3296, 3297); (3302, 3311); (3313, 3314); (3332, 3340); (3342, 3344); (3346, 3386);
   (3389, 3389); (3406, 3406); (3412, 3414); (3416, 3425); (3430, 3448); (3450, 3455);
   (3461, 3478); (3482, 3505); (3507, 3515); (3517, 3517); (3520, 3526); (3558, 3567);
   (3585, 3632); (3634, 3635); (3648, 3654); (3664, 3673); (3713, 3714); (3716, 3716);
   (3718, 3722); (3724, 3747); (3749, 3749); (3751, 3760); (3762, 3763); (3773, 3773);
   (3776, 3780); (3782, 3782); (3792, 3801); (3804, 3807); (3840, 3840); (3872, 3891);
   (3904, 3911); (3913, 3948); (3976, 3980); (4096, 4138); (4159, 4169); (4176, 4181);
   (4186, 4189); (4193, 4193); (4197, 4198); (4206, 4208); (4213, 4225); (4238, 4238);
   (4240, 4249); (4256, 4293); (4295, 4295); (4301, 4301); (4304, 4346); (4348, 4680);
   (4682, 4685); (4688, 4694); (4696, 4696); (4698, 4701); (4704, 4744); (4746, 4749);
   (4752, 4784); (4786, 4789); (4792, 4798); (4800, 4800); (4802, 4805); (4808, 4822);
   (4824, 4880); (4882, 4885); (4888, 4954); (4969, 4988); (4992, 5007); (5024, 5109);
   (5112, 5117); (5121, 5740); (5743, 5759); (5761, 5786); (5792, 5866); (5870, 5880);
   (5888, 5905); (5919, 5937); (5952, 5969); (5984, 5996); (5998, 6000); (6016, 6067);
   (6103, 6103); (6108, 6108); (6112, 6121); (6128, 6137); (6160, 6169); (6176, 6264);
   (6272, 6276); (6279, 6312); (6314, 6314); (6320, 6389); (6400, 6430); (6470, 6509);
   (6512, 6516); (6528, 6571); (6576, 6601); (6608, 6618); (6656, 6678); (6688, 6740);
   (6784, 6793); (6800, 6809); (6823, 6823); (6917, 6963); (6981, 6988); (6992, 7001);
   (7043, 7072); (7086, 7141); (7168, 7203); (7232, 7241); (7245, 7293); (7296, 7304);
   (7312, 7354); (7357, 7359); (7401, 7404); (7406, 7411); (7413, 7414); (7418, 7418);
   (7424, 7615); (7680, 7957); (7960, 7965); (7968, 8005); (8008, 8013); (8016, 8023);
   (8025, 8025); (8027, 8027); (8029, 8029); (8031, 8061); (8064, 8116); (8118, 8124);
   (8126, 8126); (8130, 8132); (8134, 8140); (8144, 8147); (8150, 8155); (8160, 8172);
   (8178, 8180); (8182, 8188); (8304, 8305); (8308, 8313); (8319, 8329); (8336, 8348);
   (8450, 8450); (8455, 8455); (8458, 8467); (8469, 8469); (8473, 8477); (8484, 8484);
   (8486, 8486); (8488, 8488); (8490, 8493); (8495, 8505); (8508, 8511); (8517, 8521);
   (8526, 8526); (8528, 8585); (9312, 9371); (9450, 9471); (10102, 10131); (11264, 11492);
   (11499, 11502); (11506, 11507); (11517, 11517); (11520, 11557); (11559, 11559); (11565, 11565);
   (11568, 11623); (11631, 11631); (11648, 11670); (11680, 11686); (11688, 11694); (11696, 11702);
   (11704, 11710); (11712, 11718); (11720, 11726); (11728, 11734); (11736, 11742); (11823, 11823);
   (12293, 12295); (12321, 12329); (12337, 12341); (12344, 12348); (12353, 12438); (12445, 12447);
   (12449, 12538); (12540, 12543); (12549, 12591); (12593, 12686); (12690, 12693); (12704, 12735);
   (12784, 12799); (12832, 12841); (12872, 12879); (12881, 12895); (12928, 12937); (12977, 12991);
   (13312, 19903); (19968, 42124); (42192, 42237); (42240, 42508); (42512, 42539); (42560, 42606);
   (42623, 42653); (42656, 42735); (42775, 42783); (42786, 42888); (42891, 42954); (42960, 42961);
   (42963, 42963); (42965, 42969); (42994, 43009); (43011, 43013); (43015, 43018); (43020, 43042);
   (43056, 43061); (43072, 43123); (43138, 43187); (43216, 43225); (43250, 43255); (43259, 43259);
   (43261, 43262); (43264, 43301); (43312, 43334); (43360, 43388); (43396, 43442); (43471, 43481);
   (43488, 43492); (43494, 43518); (43520, 43560); (43584, 43586); (43588, 43595); (43600, 43609);
   (43616, 43638); (43642, 43642); (43646, 43695); (43697, 43697); (43701, 43702); (43705, 43709);
   (43712, 43712); (43714, 43714); (43739, 43741); (43744, 43754); (43762, 43764); (43777, 43782);
   (43785, 43790); (43793, 43798); (43808, 43814); (43816, 43822); (43824, 43866); (43868, 43881);
   (43888, 44002); (44016, 44025); (44032, 55203); (55216, 55238); (55243, 55291); (63744, 64109);
   (64112, 64217); (64256, 64262); (64275, 64279); (64285, 64285); (64287, 64296); (64298, 64310);
   (64312, 64316); (64318, 64318); (64320, 64321); (64323, 64324); (64326, 64433); (64467, 64829);
   (64848, 64911); (64914, 64967); (65008, 65019); (65136, 65140); (65142, 65276); (65296, 65305);
   (65313, 65338); (65345, 65370); (65382, 65470); (65474, 65479); (65482, 65487); (65490, 65495);
   (65498, 65500); (65536, 65547); (65549, 65574); (65576, 65594); (65596, 65597); (65599, 65613);
   (65616, 65629); (65664, 65786); (65799, 65843); (65856, 65912); (65930, 65931); (66176, 66204);
   (66208, 66256); (66273, 66299); (66304, 66339); (66349, 66378); (66384, 66421); (66432, 66461);
   (66464, 66499); (66504, 66511); (66513, 66517); (66560, 66717); (66720, 66729); (66736, 66771);
   (66776, 66811); (66816, 66855); (66864, 66915); (66928, 66938); (66940, 66954); (66956, 66962);
   (66964, 66965); (66967, 66977); (66979, 66993); (66995, 67001); (67003, 67004); (67072, 67382);
   (67392, 67413); (67424, 67431); (67456, 67461); (67463, 67504); (67506, 67514); (67584, 67589);
   (67592, 67592); (67594, 67637); (67639, 67640); (67644, 67644); (67647, 67669); (67672, 67702);
   (67705, 67742); (67751, 67759); (67808, 67826); (67828, 67829); (67835, 67867); (67872, 67897);
   (67968, 68023); (68028, 68047); (68050, 68096); (68112, 68115); (68117, 68119); (68121, 68149);
   (68160, 68168); (68192, 68222); (68224, 68255); (68288, 68295); (68297, 68324); (68331, 68335);
   (68352, 68405); (68416, 68437); (68440, 68466); (68472, 68497); (68521, 68527); (68608, 68680);
   (68736, 68786); (68800, 68850); (68858, 68899); (68912, 68921); (69216, 69246); (69248, 69289);
   (69296, 69297); (69376, 69415); (69424, 69445); (69457, 69460); (69488, 69505); (69552, 69579);
   (69600, 69622); (69635, 69687); (69714, 69743); (69745, 69746); (69749, 69749); (69763, 69807);
   (69840, 69864); (69872, 69881); (69891, 69926); (69942, 69951); (69956, 69956); (69959, 69959);
   (69968, 70002); (70006, 70006); (70019, 70066); (70081, 70084); (70096, 70106); (70108, 70108);
   (70113, 70132); (70144, 70161); (70163, 70187); (70272, 70278); (70280, 70280); (70282, 70285);
   (70287, 70301); (70303, 70312); (70320, 70366); (70384, 70393); (70405, 70412); (70415, 70416);
   (70419, 70440); (70442, 70448); (70450, 70451); (70453, 70457); (70461, 70461); (70480, 70480);
   (70493, 70497); (70656, 70708); (70727, 70730); (70736, 70745); (70751, 70753); (70784, 70831);
   (70852, 70853); (70855, 70855); (70864, 70873); (71040, 71086); (71128, 71131); (71168, 71215);
   (71236, 71236); (71248, 71257); (71296, 71338); (71352, 71352); (71360, 71369); (71424, 71450);
   (71472, 71483); (71488, 71494); (71680, 71723); (71840, 71922); (71935, 71942); (71945, 71945);
   (71948, 71955); (71957, 71958); (71960, 71983); (71999, 71999); (72001, 72001); (72016, 72025);
   (72096, 72103); (72106, 72144); (72161, 72161); (72163, 72163); (72192, 72192); (72203, 72242);
   (72250, 72250); (72272, 72272); (72284, 72329); (72349, 72349); (72368, 72440); (72704, 72712);
   (72714, 72750); (72768, 72768); (72784, 72812); (72818, 72847); (72960, 72966); (72968, 72969);
   (72971, 73008); (73030, 73030); (73040, 73049); (73056, 73061); (73063, 73064); (73066, 73097);
   (73112, 73112); (73120, 73129); (73440, 73458); (73648, 73648); (73664, 73684); (73728, 74649);
   (74752, 74862); (74880, 75075); (77712, 77808); (77824, 78894); (82944, 83526); (92160, 92728);
   (92736, 92766); (92768, 92777); (92784, 92862); (92864, 92873); (92880, 92909); (92928, 92975);
   (92992, 92995); (93008, 93017); (93019, 93025); (93027, 93047); (93053, 93071); (93760, 93846);
   (93952, 94026); (94032, 94032); (94099, 94111); (94176, 94177); (94179, 94179); (94208, 100343);
   (100352, 101589); (101632, 101640); (110576, 110579); (110581, 110587); (110589, 110590); (110592, 110882);
   (110928, 110930); (110948, 110951); (110960, 111355); (113664, 113770); (113776, 113788); (113792, 113800);
   (113808, 113817); (119520, 119539); (119648, 119672); (119808, 119892); (119894, 119964); (119966, 119967);
   (119970, 119970); (119973, 119974); (119977, 119980); (119982, 119993); (119995, 119995); (119997, 120003);
   (120005, 120069); (120071, 120074); (120077, 120084); (120086, 120092); (120094, 120121); (120123, 120126);
   (120128, 120132); (120134, 120134); (120138, 120144); (120146, 120485); (120488, 120512); (120514, 120538);
   (120540, 120570); (120572, 120596); (120598, 120628); (120630, 120654); (120656, 120686); (120688, 120712);
   (120714, 120744); (120746, 120770); (120772, 120779); (120782, 120831); (122624, 122654); (123136, 123180);
   (123191, 123197); (123200, 123209); (123214, 123214); (123536, 123565); (123584, 123627); (123632, 123641);
   (124896, 124902); (124904, 124907); (124909, 124910); (124912, 124926); (124928, 125124); (125127, 125135);
   (125184, 125251); (125259, 125259); (125264, 125273); (126065, 126123); (126125, 126127); (126129, 126132);
   (126209, 126253); (126255, 126269); (126464, 126467); (126469, 126495); (126497, 126498); (126500, 126500);
   (126503, 126503); (126505, 126514); (126516, 126519); (126521, 126521); (126523, 126523); (126530, 126530);
   (126535, 126535); (126537, 126537); (126539, 126539); (126541, 126543); (126545, 126546); (126548, 126548);
   (126551, 126551); (126553, 126553); (126555, 126555); (126557, 126557); (126559, 126559); (126561, 126562);
   (126564, 126564); (126567, 126570); (126572, 126578); (126580, 126583); (126585, 126588); (126590, 126590);
   (126592, 126601); (126603, 126619); (126625, 126627); (126629, 126633); (126635, 126651); (127232, 127244);
   (130032, 130041); (131072, 173791); (173824, 177976); (177984, 178205); (178208, 183969); (183984, 191456);
   (194560, 195101); (196608, 201546)].

Definition py_isword (c : Z) : bool := in_ranges c word_ranges.

(** One literal [x] of the pattern against the character [y] under
    [re.IGNORECASE] ([_compile] and the opcodes [LITERAL],
    [LITERAL_UNI_IGNORE] and [IN_UNI_IGNORE]): an uncased literal matches
    itself only; a cased one matches every character whose lowercase is the
    literal's lowercase or one of its [_EXTRA_CASES]. *)
Definition ci_char_match (x y : Z) : bool :=
  if negb (unicode_iscased x) then y =? x
  else
    let lo := unicode_tolower x in
    match find (fun '(k, _) => k =? lo) _EXTRA_CASES with
    | Some (_, fs) => existsb (fun k => unicode_tolower y =? k) (lo :: fs)
    | None => unicode_tolower y =? lo
    end.

Definition is_word_opt (o : option Z) : bool :=
  match o with Some c => py_isword c | None => false end.

(** [\b] between the characters [a] and [b] (None: start or end of text). *)
Definition word_boundary (a b : option Z) : bool := xorb (is_word_opt a) (is_word_opt b).

Fixpoint starts_with (p s : pystr) : bool :=
  match p, s with
  | [], _ => true
  | x :: p', y :: s' => (x =? y) && starts_with p' s'
  | _ :: _, [] => false
  end.

(** Literal match of [kw] at the head of [s] under [re.IGNORECASE]. *)
Fixpoint starts_with_ci (kw s : pystr) : bool :=
  match kw, s with
  | [], _ => true
  | x :: kw', y :: s' => ci_char_match x y && starts_with_ci kw' s'
  | _ :: _, [] => false
  end.

(** [needle in hay] *)
Fixpoint contains (needle hay : pystr) : bool :=
  match hay with
  | [] => starts_with needle []
  | c :: hay' => starts_with needle hay || contains needle hay'
  end.

(** [hay.rfind(needle)], [-1] when absent. *)
Definition rfind (needle hay : pystr) : Z :=
  fst (fold_left (fun '(best, i) _ =>
          (if starts_with needle (skipn i hay) then Z.of_nat i else best, S i))
        hay (if starts_with needle [] then Z.of_nat (List.length hay) else -1, 0%nat)).

Definition count_char (c : Z) (s : pystr) : Z :=
  Z.of_nat (List.length (filter (fun x => x =? c) s)).

Definition MARK_PLACEHOLDER : pystr := s2z "___MARK_START___".
Definition MARK_END_PLACEHOLDER : pystr := s2z "___MARK_END___".

(** [replace_with_placeholder] (and [replace_char], which is the same
    function): [text_before] is [html_content[:match.start()]] of the
    string the current pass runs on. *)
Definition replace_with_placeholder (text_before group1 : pystr) : pystr :=
  let window := skipn (List.length text_before - 50) text_before in
  if contains MARK_PLACEHOLDER window &&
     (rfind MARK_END_PLACEHOLDER text_before <? rfind MARK_PLACEHOLDER text_before)
  then group1
  else if 0 <? count_char 60 text_before - count_char 62 text_before then group1
  else MARK_PLACEHOLDER ++ group1 ++ MARK_END_PLACEHOLDER.

(** [pattern.sub(replace_with_placeholder, html_content)] for the pattern
    [(kw)] ([bounded = false]) or [\b(kw)\b] ([bounded = true]) with
    [re.IGNORECASE]; [before] is the part of the input already scanned. *)
Fixpoint sub_go (bounded : bool) (kw : pystr) (fuel : nat) (before rest : pystr) : pystr :=
  match fuel with
  | O => rest
  | S fuel =>
      match rest with
      | [] => []
      | c :: rest' =>
          let k := List.length kw in
          let m := firstn k rest in
          let ok :=
            nonempty kw && starts_with_ci kw rest &&
            (negb bounded ||
             (word_boundary (last (map Some before) None) (Some c) &&
              word_boundary (last (map Some m) None) (nth_error rest k))) in
          if ok then replace_with_placeholder before m ++
                     sub_go bounded kw fuel (before ++ m) (skipn k rest)
          else c :: sub_go bounded kw fuel (before ++ [c]) rest'
      end
  end.

Definition re_sub (bounded : bool) (kw html : pystr) : pystr :=
  sub_go bounded kw (S (List.length html)) [] html.

(** [s.replace(old, new)] for a non-empty [old]. *)
Fixpoint replace_go (old new : pystr) (fuel : nat) (s : pystr) : pystr :=
  match fuel with
  | O => s
  | S fuel =>
      match s with
      | [] => []
      | c :: s' =>
          if nonempty old && starts_with old s
          then new ++ replace_go old new fuel (skipn (List.length old) s)
          else c :: replace_go old new fuel s'
      end
  end.

Definition py_replace (old new s : pystr) : pystr :=
  replace_go old new (S (List.length s)) s.

Inductive priority := Full | Phrase | Char.

(** The phrase loop: runs of characters outside [' \t\n\r'] longer than one. *)
Definition phrase_step (st : list pystr * pystr) (char : Z) : list pystr * pystr :=
  let '(phrases, current_phrase) := st in
  if in_ws4 char then
    match current_phrase with
    | [] => (phrases, current_phrase)
    | _ => ((if (1 <? List.length current_phrase)%nat then phrases ++ [current_phrase]
             else phrases), [])
    end
  else (phrases, current_phrase ++ [char]).

Definition extract_phrases (query : pystr) : list pystr :=
  let '(phrases, current_phrase) := fold_left phrase_step query ([], []) in
  match current_phrase with
  | [] => phrases
  | _ => if (1 <? List.length current_phrase)%nat then phrases ++ [current_phrase]
         else phrases
  end.

Fixpoint intercalate (sep : pystr) (l : list pystr) : pystr :=
  match l with
  | [] => []
  | [x] => x
  | x :: l' => x ++ sep ++ intercalate sep l'
  end.

Section Highlight.

(** The iteration order of [list(set(single_chars))]: it depends on string
    hashing, so it is a parameter of the model. *)
Variable set_order : list Z -> list Z.

Definition keywords_by_priority (query : pystr) : list (priority * pystr) :=
  let full_query := intercalate [32] (py_split query) in
  (match full_query with [] => [] | _ => [(Full, full_query)] end) ++
  map (fun p => (Phrase, p)) (extract_phrases query) ++
  map (fun c => (Char, [c])) (set_order (filter is_cjk query)).

Definition phrase_pass (html : pystr) (pk : priority * pystr) : pystr :=
  let '(pr, keyword) := pk in
  match pr with
  | Full | Phrase => re_sub (negb (existsb is_cjk keyword)) keyword html
  | Char => html
  end.

Definition char_pass (html : pystr) (pk : priority * pystr) : pystr :=
  let '(pr, keyword) := pk in
  match pr with
  | Char => re_sub false keyword html
  | _ => html
  end.

(** The [if q and q.strip():] block of [api.get_document], applied to the
    rendered [html_content]. *)
Definition highlight_html (q html_content : pystr) : pystr :=
  if nonempty q && nonempty (py_strip q) then
    let query := py_strip q in
    let kws := keywords_by_priority query in
    let html_content := fold_left phrase_pass kws html_content in
    let has_highlights := contains MARK_PLACEHOLDER html_content in
    let html_content :=
      if negb has_highlights then fold_left char_pass kws html_content
      else html_content in
    let html_content := py_replace MARK_PLACEHOLDER (s2z "<mark>") html_content in
    py_replace MARK_END_PLACEHOLDER (s2z "</mark>") html_content
  else html_content.

End Highlight.

(** Every [<mark>] is closed by a [</mark>] before the next [<mark>]. *)
Fixpoint marks_go (fuel : nat) (open : bool) (s : pystr) : bool :=
  match fuel with
  | O => negb open
  | S fuel =>
      match s with
      | [] => negb open
      | _ :: s' =>
          if starts_with (s2z "<mark>") s then
            negb open && marks_go fuel true (skipn 6 s)
          else if starts_with (s2z "</mark>") s then
            open && marks_go fuel false (skipn 7 s)
          else marks_go fuel open s'
      end
  end.

Definition marks_well_nested (s : pystr) : bool := marks_go (S (List.length s)) false s.

(** ** Concrete files *)

Definition file_a (body : string) : md_file :=
  mkFile (s2z "a.md") (s2z "a") true (Some (None, s2z body)) (Some 1).
Definition file_bad : md_file :=
  mkFile (s2z "bad.md") (s2z "bad") true None (Some 1).
Definition file_b : md_file :=
  mkFile (s2z "b.md") (s2z "b") true (Some (None, s2z "bravo")) (Some 1).

(** Run [index_file] on each file in turn over one connection. *)
Definition index_all (d : db) (files : list md_file) : outcome :=
  fold_left (fun o f => match o with Ok d => index_file d f | Raised => Raised end)
            files (Ok d).

Definition fts_of (o : outcome) : list fts_row :=
  match o with Ok d => fts d | Raised => [] end.
Definition docs_of (o : outcome) : list doc_row :=
  match o with Ok d => docs d | Raised => [] end.

(** ** Further definitions *)

(** Surround every CJK character with spaces. *)
Definition pad_cjk (s : pystr) : pystr :=
  flat_map (fun c => if is_cjk c then [32; c; 32] else [c]) s.

Definition not_space (c : Z) : bool := negb (py_isspace c).

Definition pad_inv (p : bool) (r1 r2 : pystr) : Prop :=
  split_equiv r1 r2 /\ (p = true -> nonempty r1 = true /\ py_last r1 = 32).

(** The invariants of the schema: paths are unique ([UNIQUE]), ids are
    unique (the primary key), and every postings row refers to exactly one
    document. *)
Definition db_wf (d : db) : Prop :=
  NoDup (map d_path (docs d)) /\ NoDup (map d_id (docs d)) /\
  (forall r, In r (fts d) ->
     List.length (filter (fun x => d_id x =? f_doc_id r) (docs d)) = 1%nat).

(** [search_service.get_document_by_id]: the first row of
    [SELECT id, path, title, summary, mtime FROM docs WHERE id = ?]. *)
Definition get_document_by_id (d : db) (doc_id : Z) : option doc_row :=
  find (fun r => d_id r =? doc_id) (docs d).

Definition id_count (l : list doc_row) (k : Z) : nat :=
  List.length (filter (fun x => d_id x =? k) l).

Definition ex_title_seg (e : pystr * pystr * pystr * pystr * pystr) : pystr :=
  snd (fst (fst (fst e))).
Definition ex_content_seg (e : pystr * pystr * pystr * pystr * pystr) : pystr :=
  snd e.

(** The id [index_file] passes to the postings statements. *)
Definition upsert_doc_id (d1 : db) (p : pystr) : Z :=
  if last_rowid d1 =? 0 then
    match select_id_by_path d1 p with Some i => i | None => last_rowid d1 end
  else last_rowid d1.

Definition out_db (o : outcome) : db := match o with Ok d => d | Raised => empty_db end.

(** A third file. *)
Definition file_c : md_file :=
  mkFile (s2z "c.md") (s2z "c") true (Some (None, s2z "charlie")) (Some 2).

(** [o] is [h] with placeholders inserted. *)
Inductive ph_inserted : pystr -> pystr -> Prop :=
| phi_nil : ph_inserted [] []
| phi_keep c o h : ph_inserted o h -> ph_inserted (c :: o) (c :: h)
| phi_start o h : ph_inserted o h -> ph_inserted (MARK_PLACEHOLDER ++ o) h
| phi_end o h : ph_inserted o h -> ph_inserted (MARK_END_PLACEHOLDER ++ o) h.

(** A phrase keyword of the highlighter. *)
Definition phrase_ok (p : pystr) : Prop :=
  (2 <= List.length p)%nat /\ forallb (fun c => negb (in_ws4 c)) p = true.

(** ** The file watcher *)


Inductive event_kind := Created | Modified | Deleted.

(** A watchdog event: [event_type], [event.is_directory],
    [event.src_path], and the file at [src_path] as [index_file] sees it
    (for a deletion only its [path_str] is used). *)
Record fs_event := mkEvent {
  ev_kind : event_kind; ev_is_directory : bool; ev_src_path : pystr; ev_file : md_file }.

(** [s.endswith(suffix)] *)
Definition py_endswith (suffix s : pystr) : bool := starts_with (rev suffix) (rev s).

(** [MdEventHandler._is_markdown_file] *)
Definition _is_markdown_file (path : pystr) : bool := py_endswith (s2z ".md") path.

(** [on_created], [on_modified] and [on_deleted] of [MdEventHandler], on
    the handler's single connection; an exception is logged and dropped. *)
Definition on_event (d : db) (ev : fs_event) : db :=
  if ev_is_directory ev then d
  else if negb (_is_markdown_file (ev_src_path ev)) then d
  else match ev_kind ev with
       | Created | Modified =>
           match index_file d (ev_file ev) with Ok d' => d' | Raised => d end
       | Deleted => remove_file_from_index d (fl_path (ev_file ev))
       end.

Definition watch_events (d : db) (evs : list fs_event) : db := fold_left on_event evs d.

Definition ev_relevant (ev : fs_event) : bool :=
  negb (ev_is_directory ev) && _is_markdown_file (ev_src_path ev).

Definition ev_modify_a (body : string) : fs_event :=
  mkEvent Modified false (s2z "/notes/a.md") (file_a body).

(** ** [sanitize_error_message] *)


Section Sanitize.

(** [str.lower()] (full Unicode case mapping, kept abstract), and
    [str(settings.md_root)], [str(settings.db_path)]. *)
Variable str_lower : pystr -> pystr.
Variables md_root_str db_path_str : pystr.

Definition sensitive_keywords : list pystr :=
  [md_root_str; db_path_str; s2z "sqlite"; s2z "database"; s2z "traceback"; s2z "exception"].

Definition generic_error_message : pystr :=
  s2z "An internal error occurred. Please contact the administrator.".

(** The [for keyword in sensitive_keywords] loop with its [break]. *)
Fixpoint sanitize_loop (kws : list pystr) (sanitized : pystr) : pystr :=
  match kws with
  | [] => sanitized
  | keyword :: kws' =>
      if contains (str_lower keyword) (str_lower sanitized) then generic_error_message
      else sanitize_loop kws' sanitized
  end.

(** [security.sanitize_error_message] *)
Definition sanitize_error_message (error_message : pystr) (is_production : bool) : pystr :=
  if negb is_production then error_message
  else sanitize_loop sensitive_keywords error_message.

End Sanitize.

(** [str.lower()] on ASCII text, used in the examples. *)
Definition ascii_lower (s : pystr) : pystr :=
  map (fun c => if (65 <=? c) && (c <=? 90) then c + 32 else c) s.

(** * Claims *)

(** ** C1
    For every string [s], splitting [_segment_chinese_text s] on whitespace
    gives the same ordered token list as splitting
    [_segment_chinese_query s] on whitespace. *)
Theorem segment_index_query_same_tokens (s : pystr) :
  py_split (_segment_chinese_text s) = py_split (_segment_chinese_query s).
Proof.
  destruct s as [|c s]; [reflexivity|].
  unfold _segment_chinese_text, _segment_chinese_query. rewrite split_strip.
  assert (H0 : seg_inv false [] []).
  { repeat split; try reflexivity; discriminate. }
  destruct (seg_fold_inv (c :: s) false [] [] H0) as [_ [He _]].
  specialize (He []). rewrite !app_nil_r in He. exact He.
Qed.

(** ** C5 (counterexample)
    The claim: segmenting ["Python机器学习"] with [_segment_chinese_text]
    and splitting on whitespace gives ["python";"机";"器";"学";"习"].
    It does not: the segmenter does not change letter case. *)
Lemma segment_python_ml_not_casefolded :
  py_split (_segment_chinese_text python_ml) <>
  [s2z "python"; [ji]; [qi]; [xue]; [xi]].
Proof. vm_compute. discriminate. Qed.

(** ** C5 (amended)
    Segmenting ["Python机器学习"] with [_segment_chinese_text] and splitting on
    whitespace gives ["Python";"机";"器";"学";"习"]: a boundary at the
    script transition, one token per CJK character, and the Latin run kept
    whole with its original case. *)
Theorem segment_python_ml_tokens :
  py_split (_segment_chinese_text python_ml) =
  [s2z "Python"; [ji]; [qi]; [xue]; [xi]].
Proof. vm_compute. reflexivity. Qed.

(** ** C2 (code bug)
    On one connection, index [a.md] ("one"), then [b.md], then re-index
    [a.md] twice ("two", "three"). The update branch of the UPSERT leaves
    [cursor.lastrowid] at the rowid of the previous [docs_fts] insert (2),
    which is not 0, so [index_file] uses 2 as the document id of [a.md]:
    [b.md]'s postings are deleted, the new content of [a.md] is stored under
    id 2, and the postings row of [a.md]'s real id 1 stays at version "one". *)
Theorem index_file_reindex_uses_stale_lastrowid :
  let o := index_all empty_db [file_a "one"; file_b; file_a "two"; file_a "three"] in
  docs_of o = [mkDoc 1 (s2z "a.md") (s2z "a") (s2z "three") 1;
               mkDoc 2 (s2z "b.md") (s2z "b") (s2z "bravo") 1] /\
  fts_of o = [mkFts 1 1 (s2z "a") (s2z "one") (s2z "a.md");
              mkFts 2 2 (s2z "a") (s2z "three") (s2z "a.md")].
Proof. vm_compute. split; reflexivity. Qed.

(** ** C9
    For a parsed file, the summary is computed from the stripped body
    [content]: it has at most 200 code points, and when [content] has at
    least 200 code points the summary is exactly its first 200. *)
Theorem extract_summary_bounded (f : md_file) (t : option pystr) (body : pystr) :
  fl_parsed f = Some (t, body) ->
  let '(_, _, summary, content, _) := extract_text_from_md f in
  content = py_strip body /\
  (List.length summary <= 200)%nat /\
  ((200 <= List.length content)%nat -> summary = firstn 200 content).
Proof.
  intros H. unfold extract_text_from_md. rewrite H.
  split; [reflexivity|].
  destruct (py_strip body) as [|c cs] eqn:E.
  - simpl. split; [lia|intros Hl; simpl in Hl; lia].
  - split; [|reflexivity]. rewrite length_firstn. lia.
Qed.

Lemma extract_summary_bounded_witness :
  let f := mkFile (s2z "n.md") (s2z "n") true
                  (Some (None, repeat 120 250)) (Some 1) in
  fl_parsed f = Some (None, repeat 120 250) /\
  (let '(_, _, summary, content, _) := extract_text_from_md f in
   content = py_strip (repeat 120 250) /\
   (List.length summary <= 200)%nat /\
   ((200 <= List.length content)%nat -> summary = firstn 200 content)).
Proof.
  simpl. split; [reflexivity|].
  exact (extract_summary_bounded
           (mkFile (s2z "n.md") (s2z "n") true (Some (None, repeat 120 250)) (Some 1))
           None (repeat 120 250) eq_refl).
Defined.

(** ** Lemmas on [index_file] and the docs table *)

Lemma pystr_eqb_spec a b : pystr_eqb a b = true <-> a = b.
Proof. unfold pystr_eqb. destruct (list_eq_dec Z.eq_dec a b); split; congruence. Qed.

Lemma pystr_eqb_refl a : pystr_eqb a a = true.
Proof. apply pystr_eqb_spec. reflexivity. Qed.

Lemma pystr_eqb_neq a b : a <> b -> pystr_eqb a b = false.
Proof. intros H. destruct (pystr_eqb a b) eqn:E; [apply pystr_eqb_spec in E; congruence|reflexivity]. Qed.

Lemma find_path_some l p r : find_path l p = Some r -> d_path r = p.
Proof.
  unfold find_path. intros H. apply find_some in H as [_ H].
  apply pystr_eqb_spec. exact H.
Qed.

Lemma find_path_map_other l p q (g : doc_row -> doc_row) :
  q <> p -> (forall r, d_path (g r) = d_path r) ->
  (forall r, d_path r <> p -> g r = r) ->
  find_path (map g l) q = find_path l q.
Proof.
  intros Hqp Hg Hfix. unfold find_path. induction l as [|r l IH]; [reflexivity|].
  simpl. rewrite Hg. destruct (pystr_eqb (d_path r) q) eqn:E.
  - apply pystr_eqb_spec in E. rewrite Hfix by congruence. reflexivity.
  - exact IH.
Qed.

Lemma find_path_map_same l p r (g : doc_row -> doc_row) :
  find_path l p = Some r -> (forall r, d_path (g r) = d_path r) ->
  find_path (map g l) p = Some (g r).
Proof.
  intros H Hg. unfold find_path in *. induction l as [|x l IH]; [discriminate|].
  simpl in *. rewrite Hg. destruct (pystr_eqb (d_path x) p).
  - congruence.
  - apply IH. exact H.
Qed.

Lemma find_app_split {A} (g : A -> bool) l1 l2 :
  find g (l1 ++ l2) = match find g l1 with Some x => Some x | None => find g l2 end.
Proof. induction l1 as [|x l1 IH]; simpl; [reflexivity|]. destruct (g x); [reflexivity|exact IH]. Qed.

Lemma find_path_snoc_other l p q r :
  d_path r = p -> q <> p -> find_path (l ++ [r]) q = find_path l q.
Proof.
  intros Hr Hq. unfold find_path. rewrite find_app_split.
  destruct (find _ l); [reflexivity|]. simpl.
  rewrite Hr, pystr_eqb_neq by congruence. reflexivity.
Qed.

Lemma find_path_snoc_same l p r :
  find_path l p = None -> d_path r = p -> find_path (l ++ [r]) p = Some r.
Proof.
  intros Hn Hr. unfold find_path in *. rewrite find_app_split, Hn. simpl.
  rewrite Hr, pystr_eqb_refl. reflexivity.
Qed.

(** What the UPSERT leaves in the docs table. *)
Lemma docs_upsert_same d p t s m :
  exists id, find_path (docs (docs_upsert d p t s m)) p = Some (mkDoc id p t s m).
Proof.
  unfold docs_upsert. destruct (find_path (docs d) p) as [r|] eqn:E; simpl.
  - exists (d_id r). rewrite (find_path_map_same _ _ r _ E).
    + rewrite (find_path_some _ _ _ E), pystr_eqb_refl. reflexivity.
    + intros x. destruct (pystr_eqb (d_path x) p); reflexivity.
  - eexists. apply find_path_snoc_same; [exact E|reflexivity].
Qed.

Lemma docs_upsert_other d p t s m q :
  q <> p -> find_path (docs (docs_upsert d p t s m)) q = find_path (docs d) q.
Proof.
  intros Hq. unfold docs_upsert. destruct (find_path (docs d) p); simpl.
  - apply (find_path_map_other _ p); [exact Hq| |].
    + intros x. destruct (pystr_eqb (d_path x) p); reflexivity.
    + intros x Hx. rewrite pystr_eqb_neq by exact Hx. reflexivity.
  - apply (find_path_snoc_other _ p); [reflexivity|exact Hq].
Qed.

Definition ex_title (e : pystr * pystr * pystr * pystr * pystr) : pystr :=
  fst (fst (fst (fst e))).
Definition ex_summary (e : pystr * pystr * pystr * pystr * pystr) : pystr :=
  snd (fst (fst e)).

(** What one [index_file] call does to the docs table. *)
Lemma index_file_docs d f :
  match index_file d f with
  | Ok d' =>
      (fl_safe f = true -> fl_mtime f <> None ->
       exists id m, find_path (docs d') (fl_path f) =
         Some (mkDoc id (fl_path f) (ex_title (extract_text_from_md f))
                     (ex_summary (extract_text_from_md f)) m)) /\
      (fl_safe f = false \/ fl_mtime f = None ->
       find_path (docs d') (fl_path f) = find_path (docs d) (fl_path f)) /\
      (forall q, q <> fl_path f -> find_path (docs d') q = find_path (docs d) q)
  | Raised => fl_safe f = true /\ fl_mtime f = None
  end.
Proof.
  unfold index_file. destruct (fl_safe f) eqn:Hs; simpl.
  - destruct (extract_text_from_md f) as [[[[t ts] sm] c] cs] eqn:Ee.
    destruct (fl_mtime f) as [m|] eqn:Hm; [|split; reflexivity].
    cbn [docs fts_insert fts_delete_doc]. unfold ex_title, ex_summary. simpl.
    repeat split.
    + intros _ _. destruct (docs_upsert_same d (fl_path f) t sm m) as [id E].
      exists id, m. exact E.
    + intros [H|H]; discriminate.
    + intros q Hq. apply docs_upsert_other. exact Hq.
  - repeat split; try reflexivity; discriminate.
Qed.

Lemma reindex_step_same d f :
  (fl_safe f = true -> fl_mtime f <> None ->
   exists id m, find_path (docs (reindex_step d f)) (fl_path f) =
     Some (mkDoc id (fl_path f) (ex_title (extract_text_from_md f))
                 (ex_summary (extract_text_from_md f)) m)) /\
  (fl_safe f = false \/ fl_mtime f = None ->
   find_path (docs (reindex_step d f)) (fl_path f) = find_path (docs d) (fl_path f)).
Proof.
  unfold reindex_step. pose proof (index_file_docs d f) as H.
  destruct (index_file d f) as [d'|].
  - destruct H as [H1 [H2 _]]. split; assumption.
  - destruct H as [Hs Hm]. split; [intros _ Hn; contradiction|reflexivity].
Qed.

Lemma reindex_step_other d f q :
  q <> fl_path f -> find_path (docs (reindex_step d f)) q = find_path (docs d) q.
Proof.
  unfold reindex_step. pose proof (index_file_docs d f) as H.
  destruct (index_file d f) as [d'|]; [|reflexivity].
  intros Hq. apply H. exact Hq.
Qed.

Lemma reindex_loop_other d files q :
  ~ In q (map fl_path files) ->
  find_path (docs (reindex_loop d files)) q = find_path (docs d) q.
Proof.
  unfold reindex_loop. revert d. induction files as [|f fs IH]; intros d Hq; [reflexivity|].
  simpl in Hq. cbn [fold_left]. rewrite IH by tauto.
  apply reindex_step_other. intros E. apply Hq. left. congruence.
Qed.

Lemma reindex_loop_docs d files :
  NoDup (map fl_path files) ->
  (forall f, In f files -> find_path (docs d) (fl_path f) = None) ->
  forall f, In f files ->
  (fl_safe f = true -> fl_mtime f <> None ->
   exists id m, find_path (docs (reindex_loop d files)) (fl_path f) =
     Some (mkDoc id (fl_path f) (ex_title (extract_text_from_md f))
                 (ex_summary (extract_text_from_md f)) m)) /\
  (fl_safe f = false \/ fl_mtime f = None ->
   find_path (docs (reindex_loop d files)) (fl_path f) = None).
Proof.
  revert d. induction files as [|g fs IH]; intros d Hnd Hnone f Hin; [destruct Hin|].
  simpl in Hnd. inversion Hnd as [|x l Hnotin Hnd']; subst.
  unfold reindex_loop. cbn [fold_left]. fold (reindex_loop (reindex_step d g) fs).
  destruct Hin as [->|Hin].
  - rewrite reindex_loop_other by exact Hnotin.
    destruct (reindex_step_same d f) as [H1 H2]. split; [exact H1|].
    intros H. rewrite H2 by exact H. apply Hnone. left. reflexivity.
  - apply IH; [exact Hnd'| |exact Hin].
    intros h Hh. rewrite reindex_step_other.
    + apply Hnone. right. exact Hh.
    + intros E. apply Hnotin. rewrite <- E. apply in_map. exact Hh.
Qed.

(** ** C7 (counterexample)
    The claim: a file whose parsing fails is logged and skipped by
    [full_reindex]. [extract_text_from_md] catches the parse error itself,
    so [bad.md] is indexed, with its stem as title and an empty summary. *)
Lemma full_reindex_indexes_unparsable_file :
  match full_reindex true empty_db [file_bad; file_b] with
  | Ok d' => find_path (docs d') (s2z "bad.md") =
               Some (mkDoc 1 (s2z "bad.md") (s2z "bad") [] 1)
  | Raised => False
  end.
Proof. vm_compute. reflexivity. Qed.

(** ** Lemmas on [LIMIT]/[OFFSET] and the join *)

Lemma Sorted_skipn {A} (R : A -> A -> Prop) n l : Sorted R l -> Sorted R (skipn n l).
Proof.
  revert l. induction n as [|n IH]; intros l H; [exact H|].
  destruct l as [|x l]; [constructor|]. simpl. apply IH.
  apply Sorted_inv in H. tauto.
Qed.

Lemma Sorted_firstn {A} (R : A -> A -> Prop) n l : Sorted R l -> Sorted R (firstn n l).
Proof.
  revert l. induction n as [|n IH]; intros l H; [constructor|].
  destruct l as [|x l]; [constructor|]. simpl.
  apply Sorted_inv in H as [Hl Hx]. constructor; [apply IH; exact Hl|].
  destruct l as [|y l]; [destruct n; constructor|]. destruct n; [constructor|].
  simpl. constructor. inversion Hx; assumption.
Qed.

Lemma Sorted_limit_offset {A} (R : A -> A -> Prop) lim off l :
  Sorted R l -> Sorted R (limit_offset lim off l).
Proof.
  intros H. unfold limit_offset. destruct (lim <? 0).
  - apply Sorted_skipn. exact H.
  - apply Sorted_firstn, Sorted_skipn. exact H.
Qed.

(** Each postings row refers to exactly one docs row. *)
Definition postings_consistent (d : db) : Prop :=
  forall r, In r (fts d) ->
    List.length (filter (fun x => d_id x =? f_doc_id r) (docs d)) = 1%nat.

Lemma length_flat_map_one {A B} (g : A -> list B) l :
  (forall a, In a l -> List.length (g a) = 1%nat) ->
  List.length (flat_map g l) = List.length l.
Proof.
  induction l as [|a l IH]; intros H; [reflexivity|].
  simpl. rewrite length_app, H by (left; reflexivity).
  rewrite IH by (intros b Hb; apply H; right; exact Hb). reflexivity.
Qed.

Lemma filter_all_false {A} (g : A -> bool) l :
  (forall a, In a l -> g a = false) -> filter g l = [].
Proof.
  induction l as [|a l IH]; intros H; [reflexivity|]. simpl.
  rewrite H by (left; reflexivity). apply IH. intros b Hb. apply H. right. exact Hb.
Qed.



Section SearchClaims.

Variable fts_match : pystr -> fts_row -> bool.
Variable bm25 : pystr -> list fts_row -> fts_row -> Z.
Variable fts_snippet : pystr -> fts_row -> pystr.
Variables default_limit max_search_limit : Z.




(** ** C6 (amended)
    Every page returned by [search_documents] is in ascending [bm25] rank,
    i.e. most relevant first under SQLite's sign convention; the query has
    no secondary sort key, so the order of equally ranked documents is not
    fixed. *)
Theorem search_documents_rank_sorted (d : db) (query : pystr) (limit : option Z)
    (offset : Z) (res : list search_result * Z) :
  search_documents fts_match bm25 fts_snippet default_limit max_search_limit
                   d query limit offset res ->
  Sorted (fun a b => r_rank a <= r_rank b) (fst res).
Proof.
  intros [ordered [[_ Hs] ->]]. simpl. apply Sorted_limit_offset. exact Hs.
Qed.

End SearchClaims.

Lemma find_path_none l p : (forall x, In x l -> d_path x <> p) -> find_path l p = None.
Proof.
  unfold find_path. induction l as [|x l IH]; intros H; [reflexivity|]. simpl.
  rewrite pystr_eqb_neq by (apply H; left; reflexivity).
  apply IH. intros y Hy. apply H. right. exact Hy.
Qed.

(** With unique paths, deleting the id found for [p] leaves no row for [p]. *)
Lemma find_path_delete_found l p r :
  NoDup (map d_path l) -> find_path l p = Some r ->
  find_path (filter (fun x => negb (d_id x =? d_id r)) l) p = None.
Proof.
  induction l as [|x l IH]; intros Hnd Hf; [reflexivity|].
  simpl in Hnd. inversion Hnd as [|y l' Hnotin Hnd']; subst.
  unfold find_path in Hf. simpl in Hf.
  destruct (pystr_eqb (d_path x) p) eqn:E.
  - injection Hf as <-. simpl. rewrite Z.eqb_refl. simpl.
    apply pystr_eqb_spec in E. apply find_path_none.
    intros y Hy Hyp. apply filter_In in Hy as [Hy _]. apply Hnotin.
    rewrite E, <- Hyp. apply in_map. exact Hy.
  - simpl. destruct (negb (d_id x =? d_id r)).
    + unfold find_path. simpl. rewrite E. apply IH; assumption.
    + apply IH; assumption.
Qed.

Section RemoveClaims.

Variable fts_match : pystr -> fts_row -> bool.
Variable bm25 : pystr -> list fts_row -> fts_row -> Z.
Variable fts_snippet : pystr -> fts_row -> pystr.
Variables default_limit max_search_limit : Z.

(** ** C8
    If [p] was never indexed, [remove_file_from_index] returns the database
    unchanged (and raises nothing). If [p] was indexed under [id] (paths
    being unique in [docs]), afterwards no docs row has path [p] or id [id],
    no postings row has [doc_id = id], every other row is kept, and a query
    all of whose matching postings rows belonged to [id] returns no result
    and [total = 0]. *)
Theorem remove_file_from_index_spec (d : db) (p : pystr) :
  (select_id_by_path d p = None -> remove_file_from_index d p = d) /\
  (forall id, select_id_by_path d p = Some id -> NoDup (map d_path (docs d)) ->
   let d' := remove_file_from_index d p in
   find_path (docs d') p = None /\
   (forall x, In x (docs d') -> d_id x <> id) /\
   (forall r, In r (fts d') -> f_doc_id r <> id) /\
   (forall x, In x (docs d) -> d_id x <> id -> In x (docs d')) /\
   (forall r, In r (fts d) -> f_doc_id r <> id -> In r (fts d')) /\
   (forall query limit offset res,
      (forall r, In r (fts d) ->
         fts_match (_segment_chinese_query query) r = true -> f_doc_id r = id) ->
      search_documents fts_match bm25 fts_snippet default_limit max_search_limit
                       d' query limit offset res ->
      res = ([], 0))).
Proof.
  unfold remove_file_from_index. split.
  - intros H. rewrite H. reflexivity.
  - intros id Hid Hnd. rewrite Hid. cbv zeta.
    unfold select_id_by_path in Hid.
    destruct (find_path (docs d) p) as [r|] eqn:Ef; [|discriminate].
    simpl in Hid. injection Hid as <-.
    cbn [docs_delete_id fts_delete_doc docs fts].
    split; [apply find_path_delete_found; assumption|].
    split.
    { intros x Hx. apply filter_In in Hx as [_ Hx].
      apply negb_true_iff, Z.eqb_neq in Hx. exact Hx. }
    split.
    { intros x Hx. apply filter_In in Hx as [_ Hx].
      apply negb_true_iff, Z.eqb_neq in Hx. exact Hx. }
    split.
    { intros x Hx Hne. apply filter_In. split; [exact Hx|].
      apply negb_true_iff, Z.eqb_neq. exact Hne. }
    split.
    { intros x Hx Hne. apply filter_In. split; [exact Hx|].
      apply negb_true_iff, Z.eqb_neq. exact Hne. }
    intros query limit offset res Huniq [ordered [[Hperm _] ->]].
    assert (Hf : filter (fts_match (_segment_chinese_query query))
                   (filter (fun x => negb (f_doc_id x =? d_id r)) (fts d)) = []).
    { apply filter_all_false. intros x Hx. apply filter_In in Hx as [Hx Hne].
      apply negb_true_iff, Z.eqb_neq in Hne.
      destruct (fts_match _ x) eqn:Em; [|reflexivity].
      exfalso. apply Hne. apply Huniq; assumption. }
    unfold joined_rows in Hperm. cbn [docs_delete_id fts_delete_doc docs fts] in Hperm. rewrite Hf in Hperm.
    simpl in Hperm. apply Permutation_nil in Hperm. subst ordered.
    unfold match_count. cbn [docs_delete_id fts_delete_doc docs fts]. rewrite Hf.
    unfold limit_offset. rewrite skipn_nil.
    destruct (_ <? 0); [reflexivity|]. rewrite firstn_nil. reflexivity.
Qed.

End RemoveClaims.

(** ** A concrete index and FTS5 behaviour for the search claims *)

(** [a.md] and [b.md] both hold "bravo"; [a.md] is then re-indexed on a
    new connection, so its postings row gets rowid 3 while [b.md]'s keeps
    rowid 2. *)
Definition db_twins : db :=
  match index_all empty_db [file_a "bravo"; file_b] with
  | Ok d => match index_all (reconnect d) [file_a "bravo"] with
            | Ok d' => d' | Raised => empty_db end
  | Raised => empty_db
  end.

(** [a.md] holds "alpha" and [b.md] holds "bravo". *)
Definition db_alpha : db :=
  match index_all empty_db [file_a "alpha"; file_b] with Ok d => d | Raised => empty_db end.

(** A row matches a query made of one term when its content is that term;
    equal contents of equal length get equal [bm25] scores. *)
Definition ex_match (q : pystr) (r : fts_row) : bool := pystr_eqb (f_content r) q.
Definition ex_bm25 (q : pystr) (t : list fts_row) (r : fts_row) : Z := 0.
Definition ex_snippet (q : pystr) (r : fts_row) : pystr := [].

Example db_twins_fts :
  map (fun r => (f_rowid r, f_doc_id r)) (fts db_twins) = [(2, 2); (3, 1)].
Proof. vm_compute. reflexivity. Qed.

Definition twins_rows : list search_result :=
  joined_rows ex_match ex_bm25 ex_snippet db_twins (_segment_chinese_query (s2z "bravo")).

Ltac solve_sorted :=
  repeat (first [ apply Sorted_cons | apply Sorted_nil | apply HdRel_cons
                | apply HdRel_nil | discriminate | simpl; lia ]).

Lemma twins_consistent : postings_consistent db_twins.
Proof.
  intros r Hr. vm_compute in Hr. destruct Hr as [<-|[<-|[]]]; reflexivity.
Qed.





(** The order the claim asks for: by rank, then by ascending id. *)
Definition rank_then_id (a b : search_result) : Prop :=
  r_rank a < r_rank b \/ (r_rank a = r_rank b /\ r_id a <= r_id b).

(** ** C6 (counterexample)
    The claim: equally ranked results come in ascending document id.
    [ORDER BY rank] alone allows the order of the rows as scanned: on
    [db_twins] both documents match "bravo" with the same rank, and the
    result [b.md] (id 2) before [a.md] (id 1) is a valid answer. *)
Lemma search_documents_ties_not_by_id :
  ~ (forall query limit offset res,
       search_documents ex_match ex_bm25 ex_snippet 20 100 db_twins query limit offset res ->
       Sorted rank_then_id (fst res)).
Proof.
  intros H.
  assert (Hs : search_documents ex_match ex_bm25 ex_snippet 20 100 db_twins (s2z "bravo")
                 None 0 (limit_offset 20 0 twins_rows, 2)).
  { exists twins_rows. split; [split; [apply Permutation_refl|]|].
    - vm_compute. solve_sorted.
    - vm_compute. reflexivity. }
  assert (E : limit_offset 20 0 twins_rows =
               [mkResult 2 (s2z "b") (s2z "b.md") [] 0; mkResult 1 (s2z "a") (s2z "a.md") [] 0])
    by (vm_compute; reflexivity).
  specialize (H _ _ _ _ Hs). simpl fst in H. rewrite E in H.
  apply Sorted_inv in H as [_ H]. inversion H as [|b l Hb]; subst.
  unfold rank_then_id in Hb. simpl in Hb. lia.
Qed.

Lemma search_documents_rank_sorted_witness :
  search_documents ex_match ex_bm25 ex_snippet 20 100 db_twins (s2z "bravo")
    None 0 (limit_offset 20 0 twins_rows, 2) /\
  Sorted (fun a b => r_rank a <= r_rank b) (limit_offset 20 0 twins_rows).
Proof.
  assert (Hs : search_documents ex_match ex_bm25 ex_snippet 20 100 db_twins (s2z "bravo")
                 None 0 (limit_offset 20 0 twins_rows, 2)).
  { exists twins_rows. split; [split; [apply Permutation_refl|]|].
    - vm_compute. solve_sorted.
    - vm_compute. reflexivity. }
  split; [exact Hs|].
  exact (search_documents_rank_sorted ex_match ex_bm25 ex_snippet 20 100 db_twins
           (s2z "bravo") None 0 _ Hs).
Defined.

Definition alpha_removed : db := remove_file_from_index db_alpha (s2z "a.md").

Definition alpha_rows : list search_result :=
  joined_rows ex_match ex_bm25 ex_snippet alpha_removed (_segment_chinese_query (s2z "alpha")).

Lemma remove_file_from_index_spec_witness :
  select_id_by_path db_alpha (s2z "a.md") = Some 1 /\
  find_path (docs alpha_removed) (s2z "a.md") = None /\
  (limit_offset 20 0 alpha_rows,
   match_count ex_match alpha_removed (_segment_chinese_query (s2z "alpha"))) = ([], 0) /\
  select_id_by_path db_alpha (s2z "zzz.md") = None /\
  remove_file_from_index db_alpha (s2z "zzz.md") = db_alpha.
Proof.
  assert (Hid : select_id_by_path db_alpha (s2z "a.md") = Some 1) by (vm_compute; reflexivity).
  assert (Hnd : NoDup (map d_path (docs db_alpha))).
  { vm_compute. constructor; [intros [E|[]]; discriminate|].
    constructor; [intros []|constructor]. }
  assert (Hs : search_documents ex_match ex_bm25 ex_snippet 20 100 alpha_removed
                 (s2z "alpha") None 0
                 (limit_offset 20 0 alpha_rows,
                  match_count ex_match alpha_removed (_segment_chinese_query (s2z "alpha")))).
  { exists alpha_rows. split; [split; [apply Permutation_refl|vm_compute; constructor]|].
    reflexivity. }
  assert (Hu : forall r, In r (fts db_alpha) ->
                 ex_match (_segment_chinese_query (s2z "alpha")) r = true -> f_doc_id r = 1).
  { intros r Hr. vm_compute in Hr. destruct Hr as [<-|[<-|[]]]; vm_compute;
      [reflexivity|discriminate]. }
  assert (Hnone : select_id_by_path db_alpha (s2z "zzz.md") = None) by (vm_compute; reflexivity).
  destruct (remove_file_from_index_spec ex_match ex_bm25 ex_snippet 20 100
              db_alpha (s2z "a.md")) as [_ H].
  destruct (H 1 Hid Hnd) as [Hp [_ [_ [_ [_ Hq]]]]].
  split; [exact Hid|]. split; [exact Hp|].
  split; [exact (Hq _ _ _ _ Hu Hs)|]. split; [exact Hnone|].
  exact (proj1 (remove_file_from_index_spec ex_match ex_bm25 ex_snippet 20 100
                  db_alpha (s2z "zzz.md")) Hnone).
Defined.

(** ** Highlighting a long query *)

Lemma phrase_pass_chars l h :
  fold_left phrase_pass (map (fun c => (Char, [c])) l) h = h.
Proof. revert h. induction l as [|c l IH]; intros h; [reflexivity|]. apply IH. Qed.

(** The query "aaaa...a 机器" (forty [a]) and the HTML that Markdown renders
    for a body holding the same text. *)
Definition long_phrase_query : pystr := repeat 97 40 ++ [32; ji; qi].
Definition long_phrase_html : pystr := s2z "<p>" ++ long_phrase_query ++ s2z "</p>".

(** ** C4 (code bug)
    Highlighting must never nest marks or mark a span twice. For this query
    the full query is marked first. When the phrase pass then finds "机器",
    the opening placeholder lies more than 50 characters back, outside the
    window [replace_with_placeholder] inspects, so "机器" is marked again
    inside the marked span: the marks nest, whatever the set order. *)
Theorem highlight_nests_marks (set_order : list Z -> list Z) :
  highlight_html set_order long_phrase_query long_phrase_html =
    s2z "<p><mark>" ++ repeat 97 40 ++ s2z " <mark>" ++ [ji; qi] ++
    s2z "</mark></mark></p>" /\
  marks_well_nested (highlight_html set_order long_phrase_query long_phrase_html) = false.
Proof.
  assert (E : highlight_html set_order long_phrase_query long_phrase_html =
              s2z "<p><mark>" ++ repeat 97 40 ++ s2z " <mark>" ++ [ji; qi] ++
              s2z "</mark></mark></p>").
  { unfold highlight_html, keywords_by_priority. cbv zeta.
    rewrite !fold_left_app, phrase_pass_chars.
    vm_compute. reflexivity. }
  split; [exact E|]. rewrite E. vm_compute. reflexivity.
Qed.

(** * Further properties of the code *)

(** ** Segmentation *)

Lemma cjk_not_space c : is_cjk c = true -> py_isspace c = false.
Proof.
  unfold is_cjk, py_isspace. intros H. apply andb_prop in H as [H1 H2].
  apply Z.leb_le in H1. apply Z.leb_le in H2.
  repeat (apply orb_false_intro); try (apply Z.eqb_neq; lia);
    apply andb_false_iff; first [left; apply Z.leb_gt; lia | right; apply Z.leb_gt; lia].
Qed.

Lemma ws4_space c : in_ws4 c = true -> py_isspace c = true.
Proof.
  unfold in_ws4. intros H. repeat (apply orb_prop in H as [H|H]);
    apply Z.eqb_eq in H; subst; reflexivity.
Qed.

(** A separator after a string that already ends in whitespace changes
    nothing. *)
Lemma split_after_ws (r t : pystr) :
  nonempty r = true -> py_isspace (py_last r) = true ->
  py_split (r ++ 32 :: t) = py_split (r ++ t).
Proof.
  intros Hn Hl. unfold py_last in Hl.
  assert (Hr : r <> []) by (destruct r; discriminate).
  rewrite (app_removelast_last 0 Hr), <- !app_assoc. simpl.
  unfold py_split. apply split_go_dup_space; [exact Hl|reflexivity].
Qed.

Lemma pad_step_inv p r1 r2 c :
  pad_inv p r1 r2 ->
  pad_inv (fst (seg_text_step (p, r1) c)) (snd (seg_text_step (p, r1) c))
          (r2 ++ (if is_cjk c then [32; c; 32] else [c])).
Proof.
  intros [He Hp]. unfold seg_text_step. cbn [fst snd].
  destruct (is_cjk c) eqn:Hcj.
  - rewrite (cjk_not_ws4 c Hcj). simpl negb. rewrite !andb_false_r. cbn [orb andb].
    split; [|intros _; split; [apply nonempty_snoc|apply py_last_snoc]].
    intros t. rewrite <- !app_assoc. cbn [app].
    rewrite <- (He (32 :: c :: 32 :: t)).
    destruct p.
    + destruct (Hp eq_refl) as [Hn Hl]. simpl.
      rewrite (split_after_ws r1 (c :: 32 :: t) Hn) by (rewrite Hl; reflexivity).
      reflexivity.
    + simpl. destruct r1 as [|x r1'] eqn:Er.
      * simpl. reflexivity.
      * rewrite <- Er. destruct (in_ws4 (py_last r1)) eqn:Hw; simpl.
        -- rewrite Er. simpl nonempty. cbn [andb].
           rewrite <- Er. rewrite split_after_ws; [reflexivity| |].
           ++ rewrite Er. reflexivity.
           ++ apply ws4_space. exact Hw.
        -- rewrite Er. simpl nonempty. cbn [andb]. rewrite <- Er.
           rewrite <- app_assoc. reflexivity.
  - simpl negb. rewrite andb_false_r. cbn [andb orb].
    destruct p.
    + destruct (Hp eq_refl) as [Hn Hl]. rewrite Hn, Hl. simpl.
      rewrite !andb_false_r.
      split; [apply split_equiv_app; exact He|discriminate].
    + simpl. split; [apply split_equiv_app; exact He|discriminate].
Qed.

Lemma pad_fold_inv s p r1 r2 :
  pad_inv p r1 r2 ->
  pad_inv (fst (fold_left seg_text_step s (p, r1)))
          (snd (fold_left seg_text_step s (p, r1))) (r2 ++ pad_cjk s).
Proof.
  revert p r1 r2. induction s as [|c s IH]; intros p r1 r2 H; cbn [fold_left].
  - rewrite app_nil_r. exact H.
  - pose proof (pad_step_inv p r1 r2 c H) as H1.
    destruct (seg_text_step (p, r1) c) as [p1 r1'] eqn:E1.
    unfold pad_cjk. cbn [flat_map]. rewrite app_assoc. apply IH. exact H1.
Qed.

(** Tokens of a padded string: a CJK character is a token on its own. *)
Lemma split_pad_cjk_tokens s cur :
  forallb (fun c => negb (is_cjk c)) cur = true ->
  forall t, In t (split_go cur (pad_cjk s)) ->
  existsb is_cjk t = true -> exists c, t = [c] /\ is_cjk c = true.
Proof.
  assert (Hrev : forall cur, forallb (fun c => negb (is_cjk c)) cur = true ->
                   existsb is_cjk (rev cur) = false).
  { intros l Hl. apply not_true_is_false. intros Hx.
    apply existsb_exists in Hx as [x [Hx Hc]]. apply in_rev in Hx.
    rewrite forallb_forall in Hl. specialize (Hl x Hx). rewrite Hc in Hl. discriminate. }
  revert cur. induction s as [|c s IH]; intros cur Hcur t Ht Hcj.
  - simpl in Ht. destruct cur; [destruct Ht|].
    destruct Ht as [<-|[]]. rewrite Hrev in Hcj by exact Hcur. discriminate.
  - unfold pad_cjk in Ht. cbn [flat_map] in Ht. fold (pad_cjk s) in Ht.
    destruct (is_cjk c) eqn:Ec.
    + cbn [app split_go] in Ht. rewrite (cjk_not_space c Ec) in Ht. simpl py_isspace in Ht.
      cbn iota in Ht.
      assert (Hmid : In t ([c] :: split_go [] (pad_cjk s)) -> exists c0, t = [c0] /\ is_cjk c0 = true).
      { intros [<-|H]; [exists c; auto|]. apply (IH []); auto. }
      destruct cur as [|x cur'].
      * apply Hmid. exact Ht.
      * destruct Ht as [<-|Ht].
        -- rewrite Hrev in Hcj by exact Hcur. discriminate.
        -- apply Hmid. exact Ht.
    + cbn [app split_go] in Ht. destruct (py_isspace c).
      * destruct cur as [|x cur'].
        -- apply (IH []); auto.
        -- destruct Ht as [<-|Ht].
           ++ rewrite Hrev in Hcj by exact Hcur. discriminate.
           ++ apply (IH []); auto.
      * apply (IH (c :: cur)); auto. simpl. rewrite Ec. exact Hcur.
Qed.

(** The index segmenter tokenizes as if every CJK character were
    surrounded by spaces. *)
Theorem segment_text_split_pad (s : pystr) :
  py_split (_segment_chinese_text s) = py_split (pad_cjk s).
Proof.
  destruct s as [|c s]; [reflexivity|].
  unfold _segment_chinese_text.
  assert (H0 : pad_inv false [] []) by (split; [intros t; reflexivity|discriminate]).
  destruct (pad_fold_inv (c :: s) false [] [] H0) as [He _].
  specialize (He []). rewrite !app_nil_r in He. exact He.
Qed.

(** The query segmenter splits like the index segmenter (the simulation
    of [seg_fold_inv]). *)
Lemma segment_split_agree (s : pystr) :
  py_split (_segment_chinese_query s) = py_split (_segment_chinese_text s).
Proof.
  destruct s as [|c s]; [reflexivity|].
  unfold _segment_chinese_text, _segment_chinese_query. rewrite split_strip.
  assert (H0 : seg_inv false [] []).
  { repeat split; try reflexivity; discriminate. }
  destruct (seg_fold_inv (c :: s) false [] [] H0) as [_ [He _]].
  specialize (He []). rewrite !app_nil_r in He. symmetry. exact He.
Qed.

(** A word being accumulated stays a prefix of the token it ends up in. *)
Lemma split_go_keeps_prefix c r :
  c <> [] -> exists w, In (rev c ++ w) (split_go c r).
Proof.
  revert c. induction r as [|z r IH]; intros c Hc.
  - exists []. rewrite app_nil_r. simpl. destruct c; [congruence|]. left. reflexivity.
  - simpl. destruct (py_isspace z).
    + exists []. rewrite app_nil_r. destruct c; [congruence|]. left. reflexivity.
    + destruct (IH (z :: c)) as [w Hw]; [discriminate|].
      exists (z :: w). simpl in Hw. rewrite <- app_assoc in Hw. exact Hw.
Qed.

(** Two adjacent non-whitespace characters end up in the same token. *)
Lemma split_go_adjacent cur l x y r :
  py_isspace x = false -> py_isspace y = false ->
  exists t1 t2, In (t1 ++ x :: y :: t2) (split_go cur (l ++ x :: y :: r)).
Proof.
  intros Hx Hy. revert cur. induction l as [|z l IH]; intros cur.
  - simpl. rewrite Hx, Hy.
    destruct (split_go_keeps_prefix (y :: x :: cur) r) as [w Hw]; [discriminate|].
    exists (rev cur), w. simpl in Hw. rewrite <- !app_assoc in Hw. exact Hw.
  - simpl. destruct (py_isspace z).
    + destruct cur as [|a cur'].
      * apply IH.
      * destruct (IH []) as [t1 [t2 H]]. exists t1, t2. right. exact H.
    + apply IH.
Qed.

Lemma pad_cjk_app u v : pad_cjk (u ++ v) = pad_cjk u ++ pad_cjk v.
Proof. unfold pad_cjk. apply flat_map_app. Qed.

(** ** C10
    Both segmenters classify a code point as CJK exactly when it lies in
    U+4E00..U+9FFF: for every string, the whitespace tokens of either
    segmenter's output are those of the string with a space put on each side
    of every code point of that range and of no other code point. Hence two
    adjacent non-whitespace code points outside the range (CJK Extension A,
    compatibility ideographs, kana, ...) are never split apart: they stay in
    one token run of the output, whatever else the string contains (e.g.
    ["机㐀㐁"] gives the tokens ["机"] and ["㐀㐁"]). *)
Theorem segment_noncjk_unchanged (s : pystr) :
  let pad := flat_map (fun c => if (19968 <=? c) && (c <=? 40959) then [32; c; 32] else [c]) s in
  py_split (_segment_chinese_text s) = py_split pad /\
  py_split (_segment_chinese_query s) = py_split pad /\
  (forall u x y v, s = u ++ x :: y :: v ->
     (x < 19968 \/ 40959 < x) -> (y < 19968 \/ 40959 < y) ->
     py_isspace x = false -> py_isspace y = false ->
     exists t1 t2, In (t1 ++ x :: y :: t2) (py_split (_segment_chinese_text s)) /\
                   In (t1 ++ x :: y :: t2) (py_split (_segment_chinese_query s))).
Proof.
  cbv zeta. fold (pad_cjk s).
  assert (Ht : py_split (_segment_chinese_text s) = py_split (pad_cjk s)).
  { destruct s as [|c s]; [reflexivity|].
    unfold _segment_chinese_text.
    assert (H0 : pad_inv false [] []) by (split; [intros t; reflexivity|discriminate]).
    destruct (pad_fold_inv (c :: s) false [] [] H0) as [He _].
    specialize (He []). rewrite !app_nil_r in He. exact He. }
  assert (Hq : py_split (_segment_chinese_query s) = py_split (pad_cjk s))
    by (rewrite segment_split_agree; exact Ht).
  split; [exact Ht|]. split; [exact Hq|].
  intros u x y v -> Hxr Hyr Hxs Hys.
  assert (Hx : is_cjk x = false)
    by (apply not_true_iff_false; rewrite is_cjk_range; lia).
  assert (Hy : is_cjk y = false)
    by (apply not_true_iff_false; rewrite is_cjk_range; lia).
  assert (Hp : pad_cjk (x :: y :: v) = x :: y :: pad_cjk v)
    by (unfold pad_cjk; cbn [flat_map]; rewrite Hx, Hy; reflexivity).
  rewrite Hq, Ht, pad_cjk_app, Hp.
  destruct (split_go_adjacent [] (pad_cjk u) x y (pad_cjk v) Hxs Hys) as [t1 [t2 H]].
  exists t1, t2. split; exact H.
Qed.

Lemma segment_noncjk_unchanged_witness :
  [ji; ext_a; ext_a + 1] = [ji] ++ ext_a :: (ext_a + 1) :: [] /\
  exists t1 t2,
    In (t1 ++ ext_a :: (ext_a + 1) :: t2) (py_split (_segment_chinese_text [ji; ext_a; ext_a + 1])) /\
    In (t1 ++ ext_a :: (ext_a + 1) :: t2) (py_split (_segment_chinese_query [ji; ext_a; ext_a + 1])).
Proof.
  split; [reflexivity|].
  apply (proj2 (proj2 (segment_noncjk_unchanged [ji; ext_a; ext_a + 1]))
           [ji] ext_a (ext_a + 1) []);
    [reflexivity | unfold ext_a; lia | unfold ext_a; lia | vm_compute; reflexivity
    | vm_compute; reflexivity].
Defined.

(** The mixed example of the claim. *)
Example segment_mixed_ext_a :
  py_split (_segment_chinese_text [ji; ext_a; ext_a + 1]) = [[ji]; [ext_a; ext_a + 1]] /\
  py_split (_segment_chinese_query [ji; ext_a; ext_a + 1]) = [[ji]; [ext_a; ext_a + 1]].
Proof. vm_compute. split; reflexivity. Qed.

(** Every token of a segmented text or query that contains a CJK
    character is that single character. *)
Theorem segment_cjk_single_tokens (s t : pystr) :
  (In t (py_split (_segment_chinese_text s)) \/
   In t (py_split (_segment_chinese_query s))) ->
  existsb is_cjk t = true -> exists c, t = [c] /\ is_cjk c = true.
Proof.
  rewrite segment_split_agree, segment_text_split_pad.
  intros Hin. apply (split_pad_cjk_tokens s []); [reflexivity|].
  destruct Hin as [H|H]; exact H.
Qed.

Lemma segment_cjk_single_tokens_witness :
  (In [ji] (py_split (_segment_chinese_text python_ml)) \/
   In [ji] (py_split (_segment_chinese_query python_ml))) /\
  existsb is_cjk [ji] = true /\ exists c, [ji] = [c] /\ is_cjk c = true.
Proof.
  assert (H1 : In [ji] (py_split (_segment_chinese_text python_ml))).
  { vm_compute. right. left. reflexivity. }
  assert (H2 : existsb is_cjk [ji] = true) by reflexivity.
  split; [left; exact H1|split; [exact H2|]].
  exact (segment_cjk_single_tokens python_ml [ji] (or_introl H1) H2).
Defined.

(** [str.split()] drops exactly the whitespace. *)
Lemma concat_split_go cur s :
  List.concat (split_go cur s) = rev cur ++ filter not_space s.
Proof.
  revert cur. induction s as [|c s IH]; intros cur; simpl.
  - destruct cur; simpl; [reflexivity|]. rewrite app_nil_r. reflexivity.
  - unfold not_space at 1. destruct (py_isspace c); simpl.
    + destruct cur as [|x cur']; simpl; rewrite IH; [reflexivity|].
      simpl. reflexivity.
    + rewrite IH. simpl. rewrite <- app_assoc. reflexivity.
Qed.

Ltac filter_steps :=
  repeat match goal with
  | |- context [if ?b then _ else _] => destruct b
  end;
  rewrite ?filter_app; simpl; rewrite ?app_nil_r, <- ?app_assoc; reflexivity.

Lemma seg_text_step_filter p r c :
  filter not_space (snd (seg_text_step (p, r) c)) =
  filter not_space r ++ filter not_space [c].
Proof. unfold seg_text_step. cbn [snd]. filter_steps. Qed.

Lemma seg_query_step_filter p r c :
  filter not_space (snd (seg_query_step (p, r) c)) =
  filter not_space r ++ filter not_space [c].
Proof. unfold seg_query_step. cbn [snd]. filter_steps. Qed.

Lemma seg_text_fold_filter s p r :
  filter not_space (snd (fold_left seg_text_step s (p, r))) =
  filter not_space r ++ filter not_space s.
Proof.
  revert p r. induction s as [|c s IH]; intros p r; cbn [fold_left].
  - rewrite app_nil_r. reflexivity.
  - pose proof (seg_text_step_filter p r c) as H.
    destruct (seg_text_step (p, r) c) as [p1 r1].
    rewrite IH. cbn [snd] in H. rewrite H, <- app_assoc. simpl.
    destruct (not_space c); reflexivity.
Qed.

Lemma seg_query_fold_filter s p r :
  filter not_space (snd (fold_left seg_query_step s (p, r))) =
  filter not_space r ++ filter not_space s.
Proof.
  revert p r. induction s as [|c s IH]; intros p r; cbn [fold_left].
  - rewrite app_nil_r. reflexivity.
  - pose proof (seg_query_step_filter p r c) as H.
    destruct (seg_query_step (p, r) c) as [p1 r1].
    rewrite IH. cbn [snd] in H. rewrite H, <- app_assoc. simpl.
    destruct (not_space c); reflexivity.
Qed.

(** Segmentation neither drops, adds nor reorders a non-whitespace
    character: the tokens, put end to end, are the non-whitespace
    characters of the input. *)
Theorem segment_tokens_concat (s : pystr) :
  List.concat (py_split (_segment_chinese_text s)) = filter not_space s /\
  List.concat (py_split (_segment_chinese_query s)) = filter not_space s.
Proof.
  destruct s as [|c s]; [split; reflexivity|].
  unfold _segment_chinese_text, _segment_chinese_query.
  rewrite split_strip. unfold py_split. rewrite !concat_split_go. simpl rev.
  rewrite seg_text_fold_filter, seg_query_fold_filter. split; reflexivity.
Qed.

Lemma seg_text_fold_length s p r :
  (List.length (snd (fold_left seg_text_step s (p, r))) <=
   List.length r + 3 * List.length s)%nat.
Proof.
  revert p r. induction s as [|c s IH]; intros p r; cbn [fold_left].
  - simpl. lia.
  - assert (H : (List.length (snd (seg_text_step (p, r) c)) <= List.length r + 3)%nat).
    { unfold seg_text_step. cbn [snd].
      repeat match goal with
      | |- context [if ?b then _ else _] => destruct b
      end; rewrite ?length_app; simpl; lia. }
    destruct (seg_text_step (p, r) c) as [p1 r1]. cbn [snd] in H.
    specialize (IH p1 r1). simpl List.length. lia.
Qed.

(** The segmented text stored in the index is at most three times as long
    as the original. *)
Theorem segment_text_length_bound (s : pystr) :
  (List.length (_segment_chinese_text s) <= 3 * List.length s)%nat.
Proof.
  destruct s as [|c s]; [simpl; lia|].
  unfold _segment_chinese_text. apply (seg_text_fold_length (c :: s) false []).
Qed.

(** ** The invariants of the index *)

Lemma max_fold_ge l a :
  a <= fold_left (fun m r => Z.max m (d_id r)) l a /\
  (forall x, In x l -> d_id x <= fold_left (fun m r => Z.max m (d_id r)) l a).
Proof.
  revert a. induction l as [|y l IH]; intros a; simpl.
  - split; [lia|intros x []].
  - destruct (IH (Z.max a (d_id y))) as [H1 H2]. split; [lia|].
    intros x [<-|Hx]; [lia|]. apply H2. exact Hx.
Qed.

Lemma upsert_new_id d :
  0 < Z.max (docs_seq d) (max_doc_id (docs d)) + 1 /\
  forall x, In x (docs d) -> d_id x < Z.max (docs_seq d) (max_doc_id (docs d)) + 1.
Proof.
  unfold max_doc_id. destruct (max_fold_ge (docs d) 0) as [H1 H2].
  split; [lia|]. intros x Hx. specialize (H2 x Hx). lia.
Qed.

Lemma id_count_map (g : doc_row -> doc_row) l k :
  (forall x, d_id (g x) = d_id x) -> id_count (map g l) k = id_count l k.
Proof.
  intros Hg. unfold id_count. induction l as [|x l IH]; [reflexivity|].
  simpl. rewrite Hg. destruct (d_id x =? k); simpl; rewrite IH; reflexivity.
Qed.

Lemma id_count_app l1 l2 k : id_count (l1 ++ l2) k = (id_count l1 k + id_count l2 k)%nat.
Proof. unfold id_count. rewrite filter_app, length_app. reflexivity. Qed.

Lemma id_count_absent l k : (forall x, In x l -> d_id x <> k) -> id_count l k = 0%nat.
Proof.
  intros H. unfold id_count. rewrite filter_all_false; [reflexivity|].
  intros x Hx. apply Z.eqb_neq. apply H. exact Hx.
Qed.

Lemma id_count_in l x : NoDup (map d_id l) -> In x l -> id_count l (d_id x) = 1%nat.
Proof.
  unfold id_count. induction l as [|y l IH]; intros Hnd Hx; [destruct Hx|].
  simpl in Hnd. inversion Hnd as [|a b Hnotin Hnd']; subst. simpl.
  destruct Hx as [<-|Hx].
  - rewrite Z.eqb_refl. simpl. f_equal.
    rewrite filter_all_false; [reflexivity|]. intros z Hz. apply Z.eqb_neq.
    intros E. apply Hnotin. rewrite <- E. apply in_map. exact Hz.
  - destruct (d_id y =? d_id x) eqn:E.
    + apply Z.eqb_eq in E. exfalso. apply Hnotin. rewrite E. apply in_map. exact Hx.
    + apply IH; assumption.
Qed.

Lemma id_count_pos l k : id_count l k <> 0%nat -> exists x, In x l /\ d_id x = k.
Proof.
  unfold id_count. intros H. destruct (filter (fun x => d_id x =? k) l) as [|x r] eqn:E.
  - contradiction.
  - assert (Hx : In x (filter (fun x => d_id x =? k) l)) by (rewrite E; left; reflexivity).
    apply filter_In in Hx as [Hx Hk]. exists x. split; [exact Hx|]. apply Z.eqb_eq. exact Hk.
Qed.

Lemma id_count_filter_other l k i :
  k <> i -> id_count (filter (fun x => negb (d_id x =? i)) l) k = id_count l k.
Proof.
  intros Hki. unfold id_count. induction l as [|x l IH]; [reflexivity|]. simpl.
  destruct (d_id x =? i) eqn:Ei; simpl.
  - apply Z.eqb_eq in Ei. subst i. rewrite (proj2 (Z.eqb_neq (d_id x) k)) by congruence.
    exact IH.
  - destruct (d_id x =? k); simpl; rewrite IH; reflexivity.
Qed.

Lemma NoDup_snoc {A} (l : list A) a : NoDup l -> ~ In a l -> NoDup (l ++ [a]).
Proof.
  intros H Ha. apply (Permutation_NoDup (l := a :: l)).
  - apply Permutation_cons_append.
  - constructor; assumption.
Qed.

Lemma NoDup_map_filter {A B} (g : A -> B) (h : A -> bool) l :
  NoDup (map g l) -> NoDup (map g (filter h l)).
Proof.
  induction l as [|x l IH]; intros H; simpl; [constructor|].
  inversion H as [|a b Hnotin Hnd]; subst.
  destruct (h x); simpl; [|apply IH; exact Hnd].
  constructor; [|apply IH; exact Hnd].
  intros Hin. apply Hnotin. apply in_map_iff in Hin as [y [Hy Hin]].
  apply filter_In in Hin as [Hin _]. rewrite <- Hy. apply in_map. exact Hin.
Qed.

Lemma find_path_none_in l p : find_path l p = None -> forall x, In x l -> d_path x <> p.
Proof.
  unfold find_path. intros H x Hx E. apply (find_none _ _ H) in Hx.
  rewrite E, pystr_eqb_refl in Hx. discriminate.
Qed.

Lemma find_id_in l x : NoDup (map d_id l) -> In x l -> find (fun r => d_id r =? d_id x) l = Some x.
Proof.
  induction l as [|y l IH]; intros Hnd Hx; [destruct Hx|].
  simpl in Hnd. inversion Hnd as [|a b Hnotin Hnd']; subst. simpl.
  destruct Hx as [<-|Hx]; [rewrite Z.eqb_refl; reflexivity|].
  destruct (d_id y =? d_id x) eqn:E.
  - apply Z.eqb_eq in E. exfalso. apply Hnotin. rewrite E. apply in_map. exact Hx.
  - apply IH; assumption.
Qed.

(** What the UPSERT does to the docs table, in one statement. *)
Lemma docs_upsert_facts d p t s m :
  NoDup (map d_path (docs d)) -> NoDup (map d_id (docs d)) ->
  let d1 := docs_upsert d p t s m in
  NoDup (map d_path (docs d1)) /\ NoDup (map d_id (docs d1)) /\ fts d1 = fts d /\
  (forall x, In x (docs d) -> id_count (docs d1) (d_id x) = id_count (docs d) (d_id x)) /\
  (forall x, In x (docs d1) -> In x (docs d) \/ d_path x = p) /\
  (forall i, select_id_by_path d p = Some i -> select_id_by_path d1 p = Some i) /\
  (last_rowid d = 0 \/ find_path (docs d) p = None ->
   select_id_by_path d1 p = Some (upsert_doc_id d1 p)).
Proof.
  intros Hp Hi. unfold docs_upsert, select_id_by_path.
  destruct (find_path (docs d) p) as [r|] eqn:Ef; cbn [docs fts last_rowid].
  - set (g := fun r0 => if pystr_eqb (d_path r0) p then mkDoc (d_id r0) (d_path r0) t s m else r0).
    assert (Hgp : forall x, d_path (g x) = d_path x)
      by (intros x; unfold g; destruct (pystr_eqb (d_path x) p); reflexivity).
    assert (Hgi : forall x, d_id (g x) = d_id x)
      by (intros x; unfold g; destruct (pystr_eqb (d_path x) p); reflexivity).
    assert (Hf : find_path (map g (docs d)) p = Some (g r))
      by (apply find_path_map_same; assumption).
    rewrite Hf. cbn [option_map]. rewrite Hgi.
    split; [rewrite map_map; rewrite (map_ext _ _ Hgp); exact Hp|].
    split; [rewrite map_map; rewrite (map_ext _ _ Hgi); exact Hi|].
    split; [reflexivity|].
    split; [intros x _; apply id_count_map; exact Hgi|].
    split.
    { intros x Hx. apply in_map_iff in Hx as [y [<- Hy]]. unfold g.
      destruct (pystr_eqb (d_path y) p) eqn:E.
      - right. apply pystr_eqb_spec. exact E.
      - left. exact Hy. }
    split; [intros i H; exact H|].
    intros [H0|H0]; [|discriminate]. unfold upsert_doc_id. cbn [last_rowid].
    rewrite H0. unfold select_id_by_path. cbn [docs]. rewrite Hf. cbn [option_map].
    rewrite Hgi. reflexivity.
  - destruct (upsert_new_id d) as [Hpos Hlt].
    set (id := Z.max (docs_seq d) (max_doc_id (docs d)) + 1) in *.
    assert (Hf : find_path (docs d ++ [mkDoc id p t s m]) p = Some (mkDoc id p t s m))
      by (apply find_path_snoc_same; [exact Ef|reflexivity]).
    rewrite Hf. cbn [option_map d_id].
    split.
    { rewrite map_app. apply NoDup_snoc; [exact Hp|]. simpl.
      intros Hin. apply in_map_iff in Hin as [y [Hy Hin]].
      exact (find_path_none_in _ _ Ef y Hin Hy). }
    split.
    { rewrite map_app. apply NoDup_snoc; [exact Hi|]. simpl.
      intros Hin. apply in_map_iff in Hin as [y [Hy Hin]].
      specialize (Hlt y Hin). lia. }
    split; [reflexivity|].
    split.
    { intros x Hx. rewrite id_count_app. unfold id_count at 2. simpl.
      specialize (Hlt x Hx). rewrite (proj2 (Z.eqb_neq id (d_id x))) by lia. simpl. lia. }
    split.
    { intros x Hx. apply in_app_or in Hx as [Hx|[<-|[]]]; [left; exact Hx|right; reflexivity]. }
    split; [intros i H; discriminate|].
    intros _. unfold upsert_doc_id, select_id_by_path. cbn [last_rowid docs].
    rewrite (proj2 (Z.eqb_neq id 0)) by lia. reflexivity.
Qed.

(** A successful [index_file] on a safe path, unfolded. *)
Lemma index_file_ok d f d' :
  index_file d f = Ok d' -> fl_safe f = true ->
  exists m, fl_mtime f = Some m /\
  let e := extract_text_from_md f in
  let d1 := docs_upsert d (fl_path f) (ex_title e) (ex_summary e) m in
  let k := upsert_doc_id d1 (fl_path f) in
  d' = fts_insert (fts_delete_doc d1 k) k (ex_title_seg e) (ex_content_seg e) (fl_path f).
Proof.
  unfold index_file. intros H Hs. rewrite Hs in H. cbn [negb] in H.
  destruct (extract_text_from_md f) as [[[[t ts] sm] c] cs].
  destruct (fl_mtime f) as [m|]; [|discriminate].
  exists m. split; [reflexivity|]. injection H as <-. reflexivity.
Qed.

Lemma index_file_wf (d : db) (f : md_file) (d' : db) :
  db_wf d -> last_rowid d = 0 \/ find_path (docs d) (fl_path f) = None ->
  index_file d f = Ok d' -> db_wf d'.
Proof.
  intros [Hp [Hi Hc]] Hfresh Hok.
  destruct (fl_safe f) eqn:Hs.
  2:{ unfold index_file in Hok. rewrite Hs in Hok. injection Hok as <-. split; auto. }
  destruct (index_file_ok d f d' Hok Hs) as [m [_ Hd']]. cbv zeta in Hd'.
  set (e := extract_text_from_md f) in Hd'.
  set (d1 := docs_upsert d (fl_path f) (ex_title e) (ex_summary e) m) in Hd'.
  set (k := upsert_doc_id d1 (fl_path f)) in Hd'.
  destruct (docs_upsert_facts d (fl_path f) (ex_title e) (ex_summary e) m Hp Hi)
    as [Hp1 [Hi1 [Hf1 [Hcnt [_ [_ Hsel]]]]]].
  fold d1 in Hp1, Hi1, Hf1, Hcnt, Hsel. specialize (Hsel Hfresh). fold k in Hsel.
  unfold select_id_by_path in Hsel.
  destruct (find_path (docs d1) (fl_path f)) as [row|] eqn:Erow; [|discriminate].
  injection Hsel as Hk.
  assert (Hrow : In row (docs d1)) by (apply find_some in Erow; tauto).
  subst d'. unfold db_wf, fts_insert, fts_delete_doc. cbn [docs fts].
  split; [exact Hp1|]. split; [exact Hi1|].
  intros r Hr. cbn [fts docs] in Hr |- *. apply in_app_or in Hr as [Hr|[<-|[]]].
  - apply filter_In in Hr as [Hr _]. rewrite Hf1 in Hr.
    pose proof (Hc r Hr) as H1. fold (id_count (docs d) (f_doc_id r)) in H1.
    destruct (id_count_pos (docs d) (f_doc_id r)) as [x [Hx Hxid]]; [lia|].
    fold (id_count (docs d1) (f_doc_id r)).
    rewrite <- Hxid, Hcnt by exact Hx. rewrite Hxid. exact H1.
  - cbn [f_doc_id]. fold (id_count (docs d1) k). rewrite <- Hk.
    apply id_count_in; assumption.
Qed.

(** [index_file] keeps the invariants, provided the UPSERT's id is read
    correctly: the path is new, or [lastrowid] is 0 (a fresh connection). *)
Theorem index_file_keeps_wf (d : db) (f : md_file) (d' : db) :
  db_wf d -> last_rowid d = 0 \/ find_path (docs d) (fl_path f) = None ->
  index_file d f = Ok d' -> db_wf d'.
Proof.
  exact (index_file_wf d f d').
Qed.

(** [remove_file_from_index] keeps the invariants. *)
Theorem remove_file_keeps_wf (d : db) (p : pystr) :
  db_wf d -> db_wf (remove_file_from_index d p).
Proof.
  intros [Hp [Hi Hc]]. unfold remove_file_from_index.
  destruct (select_id_by_path d p) as [k|]; [|split; auto].
  unfold db_wf, docs_delete_id, fts_delete_doc. cbn [docs fts].
  split; [apply NoDup_map_filter; exact Hp|].
  split; [apply NoDup_map_filter; exact Hi|].
  intros r Hr. cbn [fts docs] in Hr |- *. apply filter_In in Hr as [Hr Hne].
  apply negb_true_iff, Z.eqb_neq in Hne.
  fold (id_count (filter (fun r0 => negb (d_id r0 =? k)) (docs d)) (f_doc_id r)).
  rewrite id_count_filter_other by exact Hne. apply Hc. exact Hr.
Qed.

Lemma filter_all_true {A} (g : A -> bool) l :
  (forall a, In a l -> g a = true) -> filter g l = l.
Proof.
  induction l as [|a l IH]; intros H; [reflexivity|]. simpl.
  rewrite H by (left; reflexivity). f_equal. apply IH. intros b Hb. apply H. right. exact Hb.
Qed.

Lemma filter_filter_same {A} (g : A -> bool) l : filter g (filter g l) = filter g l.
Proof. apply filter_all_true. intros a Ha. apply filter_In in Ha. tauto. Qed.

Lemma index_file_postings_spec (d : db) (f : md_file) (d' : db) :
  db_wf d -> last_rowid d = 0 \/ find_path (docs d) (fl_path f) = None ->
  fl_safe f = true -> index_file d f = Ok d' ->
  let e := extract_text_from_md f in
  exists k m rid,
    fl_mtime f = Some m /\
    select_id_by_path d' (fl_path f) = Some k /\
    get_document_by_id d' k = Some (mkDoc k (fl_path f) (ex_title e) (ex_summary e) m) /\
    filter (fun r => f_doc_id r =? k) (fts d') =
      [mkFts rid k (ex_title_seg e) (ex_content_seg e) (fl_path f)] /\
    (forall j, j <> k ->
       filter (fun r => f_doc_id r =? j) (fts d') = filter (fun r => f_doc_id r =? j) (fts d)) /\
    (forall i, select_id_by_path d (fl_path f) = Some i -> k = i).
Proof.
  intros [Hp [Hi Hc]] Hfresh Hs Hok e.
  destruct (index_file_ok d f d' Hok Hs) as [m [Hm Hd']]. cbv zeta in Hd'. fold e in Hd'.
  set (d1 := docs_upsert d (fl_path f) (ex_title e) (ex_summary e) m) in Hd'.
  set (k := upsert_doc_id d1 (fl_path f)) in Hd'.
  destruct (docs_upsert_facts d (fl_path f) (ex_title e) (ex_summary e) m Hp Hi)
    as [Hp1 [Hi1 [Hf1 [_ [_ [Hold Hsel]]]]]].
  fold d1 in Hp1, Hi1, Hf1, Hold, Hsel. specialize (Hsel Hfresh). fold k in Hsel.
  destruct (docs_upsert_same d (fl_path f) (ex_title e) (ex_summary e) m) as [k' Hrow].
  fold d1 in Hrow.
  assert (Hk : k' = k).
  { unfold select_id_by_path in Hsel. rewrite Hrow in Hsel. injection Hsel. auto. }
  subst k'.
  exists k, m, (max_fts_rowid (filter (fun r => negb (f_doc_id r =? k)) (fts d1)) + 1).
  subst d'. unfold fts_insert, fts_delete_doc, select_id_by_path, get_document_by_id.
  cbn [docs fts].
  split; [exact Hm|].
  split; [rewrite Hrow; reflexivity|].
  split.
  { assert (Hin : In (mkDoc k (fl_path f) (ex_title e) (ex_summary e) m) (docs d1))
      by (apply find_some in Hrow; tauto).
    exact (find_id_in _ _ Hi1 Hin). }
  rewrite Hf1. split.
  { rewrite filter_app. rewrite filter_all_false.
    - simpl. rewrite Z.eqb_refl. reflexivity.
    - intros r Hr. apply filter_In in Hr as [_ Hr].
      apply negb_true_iff in Hr. exact Hr. }
  split.
  { intros j Hj. rewrite filter_app. simpl.
    rewrite (proj2 (Z.eqb_neq k j)) by congruence. rewrite app_nil_r.
    generalize (fts d) as l. intros l.
    induction l as [|r l IH]; [reflexivity|]. simpl.
    destruct (f_doc_id r =? k) eqn:E1; simpl.
    - apply Z.eqb_eq in E1. rewrite (proj2 (Z.eqb_neq (f_doc_id r) j)) by congruence.
      exact IH.
    - destruct (f_doc_id r =? j); [f_equal|]; exact IH. }
  intros i Hsi. specialize (Hold i Hsi). rewrite Hsel in Hold. injection Hold. auto.
Qed.

(** With a correct id, [index_file] leaves exactly one postings row for the
    document, holding the segmented title and content, stores the document
    so that [get_document_by_id] finds it under that id, keeps the id of a
    path indexed before, and touches no other document's postings. *)
Theorem index_file_postings (d : db) (f : md_file) (d' : db) :
  db_wf d -> last_rowid d = 0 \/ find_path (docs d) (fl_path f) = None ->
  fl_safe f = true -> index_file d f = Ok d' ->
  let e := extract_text_from_md f in
  exists k m rid,
    fl_mtime f = Some m /\
    select_id_by_path d' (fl_path f) = Some k /\
    get_document_by_id d' k = Some (mkDoc k (fl_path f) (ex_title e) (ex_summary e) m) /\
    filter (fun r => f_doc_id r =? k) (fts d') =
      [mkFts rid k (ex_title_seg e) (ex_content_seg e) (fl_path f)] /\
    (forall j, j <> k ->
       filter (fun r => f_doc_id r =? j) (fts d') = filter (fun r => f_doc_id r =? j) (fts d)) /\
    (forall i, select_id_by_path d (fl_path f) = Some i -> k = i).
Proof. exact (index_file_postings_spec d f d'). Qed.

(** Indexing a new file and then removing it restores both tables. *)
Theorem index_then_remove_restores (d : db) (f : md_file) (d' : db) :
  db_wf d -> find_path (docs d) (fl_path f) = None -> index_file d f = Ok d' ->
  docs (remove_file_from_index d' (fl_path f)) = docs d /\
  fts (remove_file_from_index d' (fl_path f)) = fts d.
Proof.
  intros [Hp [Hi Hc]] Hnew Hok.
  destruct (fl_safe f) eqn:Hs.
  2:{ unfold index_file in Hok. rewrite Hs in Hok. injection Hok as <-.
      unfold remove_file_from_index, select_id_by_path. rewrite Hnew. split; reflexivity. }
  destruct (index_file_ok d f d' Hok Hs) as [m [_ Hd']]. cbv zeta in Hd'.
  set (e := extract_text_from_md f) in Hd'.
  destruct (upsert_new_id d) as [Hpos Hlt].
  set (id := Z.max (docs_seq d) (max_doc_id (docs d)) + 1) in *.
  assert (Hk : upsert_doc_id (docs_upsert d (fl_path f) (ex_title e) (ex_summary e) m) (fl_path f) = id).
  { unfold upsert_doc_id, docs_upsert. rewrite Hnew. cbn [last_rowid]. fold id.
    rewrite (proj2 (Z.eqb_neq id 0)) by lia. reflexivity. }
  rewrite Hk in Hd'. subst d'.
  unfold remove_file_from_index, select_id_by_path, docs_upsert.
  rewrite Hnew. fold id. unfold fts_insert, fts_delete_doc, docs_delete_id. cbn [docs fts].
  rewrite find_path_snoc_same by (assumption || reflexivity). cbn [option_map d_id].
  cbn [docs fts]. split.
  - rewrite filter_app. simpl. rewrite Z.eqb_refl. simpl. rewrite app_nil_r.
    apply filter_all_true. intros x Hx. apply negb_true_iff, Z.eqb_neq.
    specialize (Hlt x Hx). lia.
  - rewrite filter_app. simpl. rewrite Z.eqb_refl. simpl. rewrite app_nil_r.
    rewrite filter_filter_same. apply filter_all_true. intros r Hr.
    apply negb_true_iff, Z.eqb_neq.
    destruct (id_count_pos (docs d) (f_doc_id r)) as [x [Hx Hxid]].
    { unfold id_count. rewrite (Hc r Hr). discriminate. }
    specialize (Hlt x Hx). lia.
Qed.

(** Removing twice is removing once. *)
Theorem remove_file_idempotent (d : db) (p : pystr) :
  NoDup (map d_path (docs d)) ->
  remove_file_from_index (remove_file_from_index d p) p = remove_file_from_index d p.
Proof.
  intros Hnd. unfold remove_file_from_index at 2 3. unfold select_id_by_path.
  destruct (find_path (docs d) p) as [r|] eqn:Ef; cbn [option_map].
  - unfold remove_file_from_index, select_id_by_path, docs_delete_id, fts_delete_doc.
    cbn [docs]. rewrite (find_path_delete_found _ _ _ Hnd Ef). reflexivity.
  - unfold remove_file_from_index, select_id_by_path. rewrite Ef. reflexivity.
Qed.

(** The rows one [index_file] call leaves in [docs] were there before or
    carry the file's path. *)
Lemma index_file_docs_from d f d' :
  NoDup (map d_path (docs d)) -> NoDup (map d_id (docs d)) ->
  index_file d f = Ok d' -> forall x, In x (docs d') -> In x (docs d) \/ d_path x = fl_path f.
Proof.
  intros Hp Hi Hok x Hx.
  destruct (fl_safe f) eqn:Hs.
  2:{ unfold index_file in Hok. rewrite Hs in Hok. injection Hok as <-. left. exact Hx. }
  destruct (index_file_ok d f d' Hok Hs) as [m [_ Hd']]. cbv zeta in Hd'.
  subst d'. cbn [fts_insert fts_delete_doc docs] in Hx.
  destruct (docs_upsert_facts d (fl_path f) (ex_title (extract_text_from_md f))
              (ex_summary (extract_text_from_md f)) m Hp Hi) as [_ [_ [_ [_ [Hfrom _]]]]].
  apply Hfrom. exact Hx.
Qed.

Lemma reindex_loop_wf d files :
  db_wf d -> NoDup (map fl_path files) ->
  (forall f, In f files -> find_path (docs d) (fl_path f) = None) ->
  db_wf (reindex_loop d files) /\
  (forall x, In x (docs (reindex_loop d files)) -> In x (docs d) \/ In (d_path x) (map fl_path files)).
Proof.
  revert d. induction files as [|g fs IH]; intros d Hwf Hnd Hnone.
  - split; [exact Hwf|]. intros x Hx. left. exact Hx.
  - simpl in Hnd. inversion Hnd as [|a b Hnotin Hnd']; subst.
    unfold reindex_loop. cbn [fold_left]. fold (reindex_loop (reindex_step d g) fs).
    assert (Hstep : db_wf (reindex_step d g) /\
                    forall x, In x (docs (reindex_step d g)) -> In x (docs d) \/ d_path x = fl_path g).
    { unfold reindex_step. destruct (index_file d g) as [d1|] eqn:E.
      - split.
        + apply (index_file_wf d g); [exact Hwf| |exact E].
          right. apply Hnone. left. reflexivity.
        + destruct Hwf as [Hp [Hi _]]. apply (index_file_docs_from d g d1 Hp Hi E).
      - split; [exact Hwf|]. intros x Hx. left. exact Hx. }
    destruct Hstep as [Hwf1 Hfrom1].
    destruct (IH (reindex_step d g) Hwf1 Hnd') as [Hwf2 Hfrom2].
    { intros h Hh. rewrite reindex_step_other.
      - apply Hnone. right. exact Hh.
      - intros E. apply Hnotin. rewrite <- E. apply in_map. exact Hh. }
    split; [exact Hwf2|].
    intros x Hx. destruct (Hfrom2 x Hx) as [Hx1|Hx1].
    + destruct (Hfrom1 x Hx1) as [Hx2|Hx2]; [left; exact Hx2|].
      right. left. congruence.
    + right. right. exact Hx1.
Qed.

(** After [full_reindex] (with distinct scanned paths) the invariants hold
    whatever the database held before, and every document row, hence every
    postings row, comes from a file of this scan. *)
Theorem full_reindex_fresh (d : db) (files : list md_file) (d' : db) :
  NoDup (map fl_path files) -> full_reindex true d files = Ok d' ->
  db_wf d' /\ (forall x, In x (docs d') -> In (d_path x) (map fl_path files)) /\
  (forall r, In r (fts d') -> exists x, In x (docs d') /\ d_id x = f_doc_id r).
Proof.
  intros Hnd Hok. unfold full_reindex in Hok. cbn [negb] in Hok. injection Hok as <-.
  destruct (reindex_loop_wf (mkDb [] (docs_seq d) [] (last_rowid d)) files) as [Hwf Hfrom].
  - split; [constructor|]. split; [constructor|]. intros r [].
  - exact Hnd.
  - intros f _. reflexivity.
  - split; [exact Hwf|]. split.
    + intros x Hx. destruct (Hfrom x Hx) as [[]|H]. exact H.
    + intros r Hr. destruct Hwf as [_ [_ Hc]]. apply id_count_pos.
      unfold id_count. rewrite (Hc r Hr). discriminate.
Qed.

Lemma NoDup_map_eq {A B} (g : A -> B) l x y :
  NoDup (map g l) -> In x l -> In y l -> g x = g y -> x = y.
Proof.
  induction l as [|a l IH]; intros Hnd Hx Hy Hg; [destruct Hx|].
  simpl in Hnd. inversion Hnd as [|b c Hnotin Hnd']; subst.
  destruct Hx as [<-|Hx]; destruct Hy as [<-|Hy]; auto.
  - exfalso. apply Hnotin. rewrite Hg. apply in_map. exact Hy.
  - exfalso. apply Hnotin. rewrite <- Hg. apply in_map. exact Hx.
Qed.

Lemma reindex_step_wf d g :
  db_wf d -> find_path (docs d) (fl_path g) = None -> db_wf (reindex_step d g).
Proof.
  intros Hwf Hnone. unfold reindex_step.
  destruct (index_file d g) as [d1|] eqn:E; [|exact Hwf].
  apply (index_file_wf d g); [exact Hwf|right; exact Hnone|exact E].
Qed.

(** Indexing a new file leaves another document's row and postings alone. *)
Lemma reindex_step_keeps d h p r :
  db_wf d -> find_path (docs d) (fl_path h) = None -> p <> fl_path h ->
  find_path (docs d) p = Some r ->
  find_path (docs (reindex_step d h)) p = Some r /\
  filter (fun x => f_doc_id x =? d_id r) (fts (reindex_step d h)) =
  filter (fun x => f_doc_id x =? d_id r) (fts d).
Proof.
  intros Hwf Hnone Hp Hr.
  split; [rewrite reindex_step_other by exact Hp; exact Hr|].
  pose proof (reindex_step_wf d h Hwf Hnone) as Hwf'.
  pose proof (reindex_step_other d h p Hp) as Hr'. rewrite Hr in Hr'.
  unfold reindex_step in Hwf', Hr' |- *.
  destruct (index_file d h) as [d'|] eqn:E; [|reflexivity].
  destruct (fl_safe h) eqn:Hs.
  2:{ unfold index_file in E. rewrite Hs in E. injection E as <-. reflexivity. }
  destruct (index_file_postings_spec d h d' Hwf (or_intror Hnone) Hs E)
    as [k [m [rid [_ [Hsel [_ [_ [Hother _]]]]]]]].
  apply Hother. intros Hk.
  unfold select_id_by_path in Hsel.
  destruct (find_path (docs d') (fl_path h)) as [rh|] eqn:Eh; [|discriminate].
  injection Hsel as Hsel.
  destruct Hwf' as [_ [Hi' _]].
  assert (Hin1 : In r (docs d')) by (apply find_some in Hr'; tauto).
  assert (Hin2 : In rh (docs d')) by (apply find_some in Eh; tauto).
  assert (Heq : r = rh) by (apply (NoDup_map_eq d_id (docs d')); auto; congruence).
  subst rh. apply find_path_some in Hr'. apply find_path_some in Eh. congruence.
Qed.

Lemma reindex_loop_keeps d files p r :
  db_wf d -> NoDup (map fl_path files) ->
  (forall f, In f files -> find_path (docs d) (fl_path f) = None) ->
  ~ In p (map fl_path files) -> find_path (docs d) p = Some r ->
  find_path (docs (reindex_loop d files)) p = Some r /\
  filter (fun x => f_doc_id x =? d_id r) (fts (reindex_loop d files)) =
  filter (fun x => f_doc_id x =? d_id r) (fts d).
Proof.
  revert d. induction files as [|g fs IH]; intros d Hwf Hnd Hnone Hp Hr.
  - split; [exact Hr|reflexivity].
  - simpl in Hnd. inversion Hnd as [|a b Hnotin Hnd']; subst.
    unfold reindex_loop. cbn [fold_left]. fold (reindex_loop (reindex_step d g) fs).
    assert (Hg : find_path (docs d) (fl_path g) = None) by (apply Hnone; left; reflexivity).
    assert (Hpg : p <> fl_path g) by (intros E; apply Hp; left; congruence).
    destruct (reindex_step_keeps d g p r Hwf Hg Hpg Hr) as [Hr1 Hf1].
    rewrite <- Hf1. apply IH; [apply reindex_step_wf; assumption|exact Hnd'| | |exact Hr1].
    + intros h Hh. rewrite reindex_step_other.
      * apply Hnone. right. exact Hh.
      * intros E. apply Hnotin. rewrite <- E. apply in_map. exact Hh.
    + intros Hin. apply Hp. right. exact Hin.
Qed.

(** Over new paths, the loop of [full_reindex] indexes every file that
    passes path validation and has an [mtime]: its docs row and its single
    postings row. *)
Lemma reindex_loop_indexed d files :
  db_wf d -> NoDup (map fl_path files) ->
  (forall f, In f files -> find_path (docs d) (fl_path f) = None) ->
  forall f m, In f files -> fl_safe f = true -> fl_mtime f = Some m ->
  let e := extract_text_from_md f in
  exists k rid,
    find_path (docs (reindex_loop d files)) (fl_path f) =
      Some (mkDoc k (fl_path f) (ex_title e) (ex_summary e) m) /\
    filter (fun r => f_doc_id r =? k) (fts (reindex_loop d files)) =
      [mkFts rid k (ex_title_seg e) (ex_content_seg e) (fl_path f)].
Proof.
  revert d. induction files as [|g fs IH]; intros d Hwf Hnd Hnone f m Hin Hs Hm e;
    [destruct Hin|].
  simpl in Hnd. inversion Hnd as [|a b Hnotin Hnd']; subst.
  unfold reindex_loop. cbn [fold_left]. fold (reindex_loop (reindex_step d g) fs).
  assert (Hg : find_path (docs d) (fl_path g) = None) by (apply Hnone; left; reflexivity).
  assert (Hfs : forall h, In h fs -> find_path (docs (reindex_step d g)) (fl_path h) = None).
  { intros h Hh. rewrite reindex_step_other.
    - apply Hnone. right. exact Hh.
    - intros E. apply Hnotin. rewrite <- E. apply in_map. exact Hh. }
  destruct Hin as [<-|Hin].
  - pose proof (index_file_docs d g) as Hdocs.
    pose proof (reindex_step_wf d g Hwf Hg) as Hwf1.
    unfold reindex_step in Hwf1, Hfs |- *.
    destruct (index_file d g) as [d1|] eqn:E; [|destruct Hdocs; congruence].
    destruct (index_file_postings_spec d g d1 Hwf (or_intror Hg) Hs E)
      as [k [m' [rid [Hm' [Hsel [Hget [Hpost _]]]]]]].
    rewrite Hm in Hm'. injection Hm' as <-. fold e in Hget, Hpost.
    unfold select_id_by_path in Hsel.
    destruct (find_path (docs d1) (fl_path g)) as [rg|] eqn:Eg; [|discriminate].
    injection Hsel as Hk.
    assert (Hrg : rg = mkDoc k (fl_path g) (ex_title e) (ex_summary e) m).
    { destruct Hwf1 as [_ [Hi1 _]].
      assert (Hin1 : In rg (docs d1)) by (apply find_some in Eg; tauto).
      pose proof (find_id_in _ _ Hi1 Hin1) as Hf. unfold get_document_by_id in Hget.
      rewrite Hk in Hf. congruence. }
    subst rg. exists k, rid.
    destruct (reindex_loop_keeps d1 fs (fl_path g) _ Hwf1 Hnd' Hfs Hnotin Eg) as [H1 H2].
    cbn [d_id] in H2. split; [exact H1|]. rewrite H2. exact Hpost.
  - apply IH; try assumption. apply reindex_step_wf; assumption.
Qed.

(** ** C7 (amended)
    [full_reindex] over files with distinct paths always completes. Every
    file that passes path validation and whose [mtime] can be read is
    indexed: its docs row holds its title, summary and [mtime] under some
    id [k], and the postings table has exactly one row for [k], holding the
    segmented title and content. A file whose parsing failed is among
    them: its title and segmented title are the file-name stem, and its
    summary and segmented body are empty. A file whose [index_file] call
    raises (e.g. [os.path.getmtime] fails) or that path validation rejects
    gets no docs row, and the scan goes on. *)
Theorem full_reindex_continues (d : db) (files : list md_file) :
  NoDup (map fl_path files) ->
  exists d', full_reindex true d files = Ok d' /\
  forall f, In f files ->
    (fl_safe f = true -> forall m, fl_mtime f = Some m ->
     let e := extract_text_from_md f in
     exists k rid,
       find_path (docs d') (fl_path f) =
         Some (mkDoc k (fl_path f) (ex_title e) (ex_summary e) m) /\
       filter (fun r => f_doc_id r =? k) (fts d') =
         [mkFts rid k (ex_title_seg e) (ex_content_seg e) (fl_path f)] /\
       (fl_parsed f = None ->
        ex_title e = fl_stem f /\ ex_title_seg e = fl_stem f /\
        ex_summary e = [] /\ ex_content_seg e = [])) /\
    (fl_safe f = false \/ fl_mtime f = None ->
     find_path (docs d') (fl_path f) = None).
Proof.
  intros Hnd. eexists. split; [reflexivity|].
  assert (Hwf0 : db_wf (mkDb [] (docs_seq d) [] (last_rowid d))).
  { split; [constructor|]. split; [constructor|]. intros r []. }
  intros f Hin. split.
  - intros Hs m Hm e.
    destruct (reindex_loop_indexed (mkDb [] (docs_seq d) [] (last_rowid d)) files Hwf0 Hnd
                (fun _ _ => eq_refl) f m Hin Hs Hm) as [k [rid [H1 H2]]].
    exists k, rid. split; [exact H1|]. split; [exact H2|].
    intros Hp. unfold e, ex_title, ex_title_seg, ex_summary, ex_content_seg,
      extract_text_from_md. rewrite Hp. repeat split.
  - destruct (reindex_loop_docs (mkDb [] (docs_seq d) [] (last_rowid d)) files Hnd
                (fun _ _ => eq_refl) f Hin) as [_ H2].
    exact H2.
Qed.

Lemma full_reindex_continues_witness :
  NoDup (map fl_path [file_bad; file_b]) /\
  exists d', full_reindex true empty_db [file_bad; file_b] = Ok d' /\
  exists k rid,
    find_path (docs d') (s2z "bad.md") = Some (mkDoc k (s2z "bad.md") (s2z "bad") [] 1) /\
    filter (fun r => f_doc_id r =? k) (fts d') = [mkFts rid k (s2z "bad") [] (s2z "bad.md")].
Proof.
  assert (H : NoDup (map fl_path [file_bad; file_b])).
  { vm_compute. constructor; [intros [E|[]]; discriminate|].
    constructor; [intros []|constructor]. }
  split; [exact H|].
  destruct (full_reindex_continues empty_db [file_bad; file_b] H) as [d' [E Hall]].
  exists d'. split; [exact E|].
  destruct (proj1 (Hall file_bad (or_introl eq_refl)) eq_refl 1 eq_refl) as [k [rid [H1 [H2 _]]]].
  exists k, rid. split; [exact H1|exact H2].
Defined.

(** ** Page sizes *)

Section SearchMore.

Variable fts_match : pystr -> fts_row -> bool.
Variable bm25 : pystr -> list fts_row -> fts_row -> Z.
Variable fts_snippet : pystr -> fts_row -> pystr.
Variables default_limit max_search_limit : Z.

Lemma search_ordered_length d query ordered :
  postings_consistent d ->
  order_by_rank (joined_rows fts_match bm25 fts_snippet d (_segment_chinese_query query)) ordered ->
  Z.of_nat (List.length ordered) = match_count fts_match d (_segment_chinese_query query).
Proof.
  intros Hc [Hperm _]. unfold match_count. rewrite <- (Permutation_length Hperm).
  unfold joined_rows. rewrite length_flat_map_one; [reflexivity|].
  intros r Hr. rewrite length_map. apply Hc. apply filter_In in Hr. tauto.
Qed.

(** A page never holds more rows than the requested (or default) limit,
    nor more than [max_search_limit], as long as both are non-negative. *)
Theorem search_documents_page_bounded (d : db) (query : pystr) (limit : option Z)
    (offset : Z) (res : list search_result * Z) :
  0 <= max_search_limit ->
  0 <= match limit with None => default_limit | Some l => l end ->
  search_documents fts_match bm25 fts_snippet default_limit max_search_limit
                   d query limit offset res ->
  Z.of_nat (List.length (fst res)) <=
  Z.min (match limit with None => default_limit | Some l => l end) max_search_limit.
Proof.
  intros Hmax Hl [ordered [_ ->]]. cbn [fst].
  set (L := match limit with None => default_limit | Some l => l end) in *.
  assert (EL : (if L >? max_search_limit then max_search_limit else L) = Z.min L max_search_limit).
  { destruct (Z.gtb_spec L max_search_limit); lia. }
  rewrite EL. unfold limit_offset.
  rewrite (proj2 (Z.ltb_ge _ 0)) by lia.
  rewrite length_firstn. rewrite Nat2Z.inj_min, Z2Nat.id by lia. lia.
Qed.

(** A negative [limit] is not rejected: SQLite reads [LIMIT -1] as no
    limit, and every matching document past the offset is returned. *)
Theorem search_documents_negative_limit (d : db) (query : pystr) (L off : Z)
    (res : list search_result * Z) :
  postings_consistent d -> L < 0 -> L <= max_search_limit -> 0 <= off ->
  search_documents fts_match bm25 fts_snippet default_limit max_search_limit
                   d query (Some L) off res ->
  Z.of_nat (List.length (fst res)) =
  Z.max 0 (match_count fts_match d (_segment_chinese_query query) - off).
Proof.
  intros Hc HL Hmax Hoff [ordered [Hord ->]]. cbn [fst].
  pose proof (search_ordered_length d query ordered Hc Hord) as Hn.
  rewrite Z.gtb_ltb, (proj2 (Z.ltb_ge max_search_limit L)) by lia.
  unfold limit_offset. rewrite (proj2 (Z.ltb_lt L 0)) by lia.
  rewrite length_skipn. rewrite Nat2Z.inj_sub_max, Z2Nat.id by lia. lia.
Qed.

End SearchMore.

(** ** Witnesses on the concrete index *)

Ltac solve_nodup :=
  repeat (apply NoDup_cons; [simpl; intuition discriminate|]); apply NoDup_nil.

Ltac solve_wf :=
  unfold db_wf; vm_compute;
  split; [solve_nodup|split; [solve_nodup|]];
  intros r Hr; repeat (destruct Hr as [<-|Hr]; [reflexivity|]); destruct Hr.

Lemma index_file_keeps_wf_witness :
  db_wf (reconnect db_twins) /\ last_rowid (reconnect db_twins) = 0 /\
  index_file (reconnect db_twins) file_b = Ok (out_db (index_file (reconnect db_twins) file_b)) /\
  db_wf (out_db (index_file (reconnect db_twins) file_b)).
Proof.
  assert (Hwf : db_wf (reconnect db_twins)) by solve_wf.
  assert (Hok : index_file (reconnect db_twins) file_b =
                Ok (out_db (index_file (reconnect db_twins) file_b))) by (vm_compute; reflexivity).
  split; [exact Hwf|]. split; [reflexivity|]. split; [exact Hok|].
  exact (index_file_keeps_wf _ _ _ Hwf (or_introl eq_refl) Hok).
Defined.

Lemma remove_file_keeps_wf_witness :
  db_wf db_twins /\ db_wf (remove_file_from_index db_twins (s2z "a.md")).
Proof.
  assert (Hwf : db_wf db_twins) by solve_wf.
  split; [exact Hwf|]. exact (remove_file_keeps_wf db_twins (s2z "a.md") Hwf).
Defined.

Lemma index_file_postings_witness :
  db_wf (reconnect db_twins) /\ last_rowid (reconnect db_twins) = 0 /\
  fl_safe file_b = true /\
  index_file (reconnect db_twins) file_b = Ok (out_db (index_file (reconnect db_twins) file_b)) /\
  exists k m rid,
    fl_mtime file_b = Some m /\
    select_id_by_path (out_db (index_file (reconnect db_twins) file_b)) (fl_path file_b) = Some k /\
    get_document_by_id (out_db (index_file (reconnect db_twins) file_b)) k =
      Some (mkDoc k (fl_path file_b) (ex_title (extract_text_from_md file_b))
                  (ex_summary (extract_text_from_md file_b)) m) /\
    filter (fun r => f_doc_id r =? k) (fts (out_db (index_file (reconnect db_twins) file_b))) =
      [mkFts rid k (ex_title_seg (extract_text_from_md file_b))
             (ex_content_seg (extract_text_from_md file_b)) (fl_path file_b)] /\
    (forall j, j <> k ->
       filter (fun r => f_doc_id r =? j) (fts (out_db (index_file (reconnect db_twins) file_b))) =
       filter (fun r => f_doc_id r =? j) (fts (reconnect db_twins))) /\
    (forall i, select_id_by_path (reconnect db_twins) (fl_path file_b) = Some i -> k = i).
Proof.
  assert (Hwf : db_wf (reconnect db_twins)) by solve_wf.
  assert (Hok : index_file (reconnect db_twins) file_b =
                Ok (out_db (index_file (reconnect db_twins) file_b))) by (vm_compute; reflexivity).
  split; [exact Hwf|]. split; [reflexivity|]. split; [reflexivity|]. split; [exact Hok|].
  exact (index_file_postings (reconnect db_twins) file_b _ Hwf (or_introl eq_refl) eq_refl Hok).
Defined.

Lemma index_then_remove_restores_witness :
  db_wf db_alpha /\ find_path (docs db_alpha) (fl_path file_c) = None /\
  index_file db_alpha file_c = Ok (out_db (index_file db_alpha file_c)) /\
  docs (remove_file_from_index (out_db (index_file db_alpha file_c)) (fl_path file_c)) = docs db_alpha /\
  fts (remove_file_from_index (out_db (index_file db_alpha file_c)) (fl_path file_c)) = fts db_alpha.
Proof.
  assert (Hwf : db_wf db_alpha) by solve_wf.
  assert (Hn : find_path (docs db_alpha) (fl_path file_c) = None) by (vm_compute; reflexivity).
  assert (Hok : index_file db_alpha file_c = Ok (out_db (index_file db_alpha file_c)))
    by (vm_compute; reflexivity).
  split; [exact Hwf|]. split; [exact Hn|]. split; [exact Hok|].
  exact (index_then_remove_restores _ _ _ Hwf Hn Hok).
Defined.

Lemma remove_file_idempotent_witness :
  NoDup (map d_path (docs db_twins)) /\
  remove_file_from_index (remove_file_from_index db_twins (s2z "a.md")) (s2z "a.md") =
  remove_file_from_index db_twins (s2z "a.md").
Proof.
  assert (Hnd : NoDup (map d_path (docs db_twins))) by (vm_compute; solve_nodup).
  split; [exact Hnd|]. exact (remove_file_idempotent db_twins (s2z "a.md") Hnd).
Defined.

Lemma full_reindex_fresh_witness :
  let files := [file_a "x"; file_c] in
  NoDup (map fl_path files) /\
  full_reindex true db_twins files = Ok (out_db (full_reindex true db_twins files)) /\
  db_wf (out_db (full_reindex true db_twins files)) /\
  (forall x, In x (docs (out_db (full_reindex true db_twins files))) -> In (d_path x) (map fl_path files)) /\
  (forall r, In r (fts (out_db (full_reindex true db_twins files))) ->
     exists x, In x (docs (out_db (full_reindex true db_twins files))) /\ d_id x = f_doc_id r).
Proof.
  intros files.
  assert (Hnd : NoDup (map fl_path files)) by (vm_compute; solve_nodup).
  assert (Hok : full_reindex true db_twins files = Ok (out_db (full_reindex true db_twins files)))
    by (vm_compute; reflexivity).
  split; [exact Hnd|]. split; [exact Hok|].
  exact (full_reindex_fresh db_twins files _ Hnd Hok).
Defined.

Lemma search_documents_page_bounded_witness :
  0 <= 1 /\ 0 <= 20 /\
  search_documents ex_match ex_bm25 ex_snippet 20 1 db_twins (s2z "bravo") None 0
    (limit_offset 1 0 twins_rows, 2) /\
  Z.of_nat (List.length (limit_offset 1 0 twins_rows)) <= Z.min 20 1.
Proof.
  assert (Hs : search_documents ex_match ex_bm25 ex_snippet 20 1 db_twins (s2z "bravo")
                 None 0 (limit_offset 1 0 twins_rows, 2)).
  { exists twins_rows. split; [split; [apply Permutation_refl|]|].
    - vm_compute. solve_sorted.
    - vm_compute. reflexivity. }
  split; [lia|]. split; [lia|]. split; [exact Hs|].
  exact (search_documents_page_bounded ex_match ex_bm25 ex_snippet 20 1 db_twins
           (s2z "bravo") None 0 _ ltac:(lia) ltac:(simpl; lia) Hs).
Defined.

Lemma search_documents_negative_limit_witness :
  postings_consistent db_twins /\ -1 < 0 /\ -1 <= 100 /\ 0 <= 0 /\
  search_documents ex_match ex_bm25 ex_snippet 20 100 db_twins (s2z "bravo") (Some (-1)) 0
    (limit_offset (-1) 0 twins_rows, 2) /\
  Z.of_nat (List.length (limit_offset (-1) 0 twins_rows)) =
  Z.max 0 (match_count ex_match db_twins (_segment_chinese_query (s2z "bravo")) - 0).
Proof.
  assert (Hs : search_documents ex_match ex_bm25 ex_snippet 20 100 db_twins (s2z "bravo")
                 (Some (-1)) 0 (limit_offset (-1) 0 twins_rows, 2)).
  { exists twins_rows. split; [split; [apply Permutation_refl|]|].
    - vm_compute. solve_sorted.
    - vm_compute. reflexivity. }
  split; [exact twins_consistent|]. split; [lia|]. split; [lia|]. split; [lia|].
  split; [exact Hs|].
  exact (search_documents_negative_limit ex_match ex_bm25 ex_snippet 20 100 db_twins
           (s2z "bravo") (-1) 0 _ twins_consistent ltac:(lia) ltac:(lia) ltac:(lia) Hs).
Defined.

(** ** The highlighter *)

(** Case-insensitive literals and [\w] beyond ASCII, as [re] has them:
    É/é, s/ſ (long s), ß/ẞ, k/K (Kelvin sign); α, ², ª, º, 㐀, あ and 한 are
    word characters, × is not. *)
Example ci_and_word_examples :
  map (fun '(x, y) => ci_char_match x y)
      [(201, 233); (115, 383); (223, 7838); (107, 8490)] = [true; true; true; true] /\
  map py_isword [945; 178; 170; 186; 13312; 12354; 54620; 215] =
    [true; true; true; true; true; true; true; false].
Proof. vm_compute. split; reflexivity. Qed.

Lemma ph_inserted_refl h : ph_inserted h h.
Proof. induction h as [|c h IH]; constructor; exact IH. Qed.

Lemma ph_inserted_app o1 h1 o2 h2 :
  ph_inserted o1 h1 -> ph_inserted o2 h2 -> ph_inserted (o1 ++ o2) (h1 ++ h2).
Proof.
  intros H1 H2. induction H1 as [|c o h _ IH|o h _ IH|o h _ IH].
  - exact H2.
  - cbn [app]. constructor. exact IH.
  - rewrite <- app_assoc. constructor. exact IH.
  - rewrite <- app_assoc. constructor. exact IH.
Qed.

Lemma replace_with_placeholder_ph before m :
  ph_inserted (replace_with_placeholder before m) m.
Proof.
  unfold replace_with_placeholder.
  destruct (_ && _); [apply ph_inserted_refl|].
  destruct (0 <? _); [apply ph_inserted_refl|].
  apply phi_start. rewrite <- (app_nil_r m) at 2. apply ph_inserted_app.
  - apply ph_inserted_refl.
  - rewrite <- (app_nil_r MARK_END_PLACEHOLDER). apply phi_end. constructor.
Qed.

Lemma sub_go_ph b kw fuel before rest :
  ph_inserted (sub_go b kw fuel before rest) rest.
Proof.
  revert before rest. induction fuel as [|fuel IH]; intros before rest; simpl.
  - apply ph_inserted_refl.
  - destruct rest as [|c rest']; [constructor|].
    destruct (_ && _ && _).
    + refine (eq_ind _ (ph_inserted _) _ _ (firstn_skipn (List.length kw) (c :: rest'))).
      apply ph_inserted_app; [apply replace_with_placeholder_ph|apply IH].
    + constructor. apply IH.
Qed.

(** One substitution pass of the highlighter keeps every character of its
    input, in order, and only inserts the two placeholders. *)
Theorem re_sub_inserts_placeholders (bounded : bool) (kw html : pystr) :
  ph_inserted (re_sub bounded kw html) html.
Proof. unfold re_sub. apply sub_go_ph. Qed.

Lemma phrase_fold_inv q phrases cur :
  Forall phrase_ok phrases -> forallb (fun c => negb (in_ws4 c)) cur = true ->
  Forall phrase_ok (fst (fold_left phrase_step q (phrases, cur))) /\
  forallb (fun c => negb (in_ws4 c)) (snd (fold_left phrase_step q (phrases, cur))) = true.
Proof.
  revert phrases cur. induction q as [|c q IH]; intros phrases cur Hp Hc; cbn [fold_left].
  - split; assumption.
  - assert (Hs : Forall phrase_ok (fst (phrase_step (phrases, cur) c)) /\
                 forallb (fun c => negb (in_ws4 c)) (snd (phrase_step (phrases, cur) c)) = true).
    { unfold phrase_step. destruct (in_ws4 c) eqn:Ew.
      - destruct cur as [|x cur']; [split; assumption|]. split; [|reflexivity]. cbn [fst].
        destruct (Nat.ltb_spec 1 (List.length (x :: cur'))) as [Hl|Hl]; [|exact Hp].
        apply Forall_app. split; [exact Hp|]. constructor; [|constructor].
        split; [lia|exact Hc].
      - split; [exact Hp|]. cbn [snd]. rewrite forallb_app, Hc. simpl. rewrite Ew. reflexivity. }
    destruct (phrase_step (phrases, cur) c) as [p1 c1]. apply IH; apply Hs.
Qed.

(** Every phrase keyword has at least two characters and none of
    [' \t\n\r']. *)
Theorem extract_phrases_ok (query : pystr) : Forall phrase_ok (extract_phrases query).
Proof.
  unfold extract_phrases.
  destruct (phrase_fold_inv query [] [] (Forall_nil _) eq_refl) as [Hp Hc].
  destruct (fold_left phrase_step query ([], [])) as [phrases cur]. cbn [fst snd] in *.
  destruct cur as [|x cur']; [exact Hp|].
  destruct (Nat.ltb_spec 1 (List.length (x :: cur'))) as [Hl|Hl]; [|exact Hp].
  apply Forall_app. split; [exact Hp|]. constructor; [|constructor]. split; [lia|exact Hc].
Qed.

(** ** The file watcher *)

Lemma max_fts_fold_ge l a : a <= fold_left (fun m r => Z.max m (f_rowid r)) l a.
Proof.
  revert a. induction l as [|y l IH]; intros a; simpl; [lia|].
  specialize (IH (Z.max a (f_rowid y))). lia.
Qed.

(** After [index_file] succeeds on a safe path, the connection's
    [lastrowid] is the new postings rowid, which is positive. *)
Theorem index_file_lastrowid_positive (d : db) (f : md_file) (d' : db) :
  fl_safe f = true -> index_file d f = Ok d' -> 0 < last_rowid d'.
Proof.
  intros Hs Hok. unfold index_file in Hok. rewrite Hs in Hok. cbn [negb] in Hok.
  destruct (extract_text_from_md f) as [[[[t ts] sm] c] cs].
  destruct (fl_mtime f) as [m|]; [|discriminate]. injection Hok as <-.
  unfold fts_insert. cbn [last_rowid]. unfold max_fts_rowid.
  match goal with |- 0 < fold_left _ ?l 0 + 1 => pose proof (max_fts_fold_ge l 0) end.
  lia.
Qed.

(** On the watcher's connection, once [lastrowid] is positive it stays
    positive whatever events follow: deletions do not reset it, so the
    [doc_id == 0] branch of [index_file] is never taken again. *)
Theorem watch_events_lastrowid_positive (d : db) (evs : list fs_event) :
  0 < last_rowid d -> 0 < last_rowid (watch_events d evs).
Proof.
  unfold watch_events. revert d. induction evs as [|ev evs IH]; intros d Hd; [exact Hd|].
  cbn [fold_left]. apply IH. unfold on_event.
  destruct (ev_is_directory ev); [exact Hd|].
  destruct (negb (_is_markdown_file (ev_src_path ev))); [exact Hd|].
  destruct (ev_kind ev).
  1,2: destruct (index_file d (ev_file ev)) as [d'|] eqn:E; [|exact Hd];
       destruct (fl_safe (ev_file ev)) eqn:Hs;
       [exact (index_file_lastrowid_positive _ _ _ Hs E)|];
       unfold index_file in E; rewrite Hs in E; injection E as <-; exact Hd.
  unfold remove_file_from_index. destruct (select_id_by_path d _); [|exact Hd].
  exact Hd.
Qed.

(** Directory events and paths not ending in [.md] leave the index as it
    is: a stream of events acts like the stream of its relevant events. *)
Theorem watch_events_ignores_irrelevant (d : db) (evs : list fs_event) :
  watch_events d evs = watch_events d (filter ev_relevant evs).
Proof.
  unfold watch_events. revert d. induction evs as [|ev evs IH]; intros d; [reflexivity|].
  cbn [fold_left filter]. unfold ev_relevant at 1.
  destruct (ev_is_directory ev) eqn:Ed; cbn [negb andb].
  - rewrite <- IH. unfold on_event at 2. rewrite Ed. reflexivity.
  - destruct (_is_markdown_file (ev_src_path ev)) eqn:Em.
    + cbn [fold_left]. apply IH.
    + rewrite <- IH. unfold on_event at 2. rewrite Ed, Em. reflexivity.
Qed.

Lemma index_file_lastrowid_positive_witness :
  fl_safe (file_a "x") = true /\
  index_file empty_db (file_a "x") = Ok (out_db (index_file empty_db (file_a "x"))) /\
  0 < last_rowid (out_db (index_file empty_db (file_a "x"))).
Proof.
  assert (Hok : index_file empty_db (file_a "x") = Ok (out_db (index_file empty_db (file_a "x"))))
    by (vm_compute; reflexivity).
  split; [reflexivity|]. split; [exact Hok|].
  exact (index_file_lastrowid_positive empty_db (file_a "x") _ eq_refl Hok).
Defined.

Lemma watch_events_lastrowid_positive_witness :
  let d := out_db (index_file empty_db (file_a "x")) in
  let evs := [mkEvent Deleted false (s2z "/notes/a.md") (file_a "x"); ev_modify_a "y"] in
  0 < last_rowid d /\ 0 < last_rowid (watch_events d evs).
Proof.
  intros d evs. assert (Hd : 0 < last_rowid d) by (vm_compute; reflexivity).
  split; [exact Hd|]. exact (watch_events_lastrowid_positive d evs Hd).
Defined.

(** ** [sanitize_error_message] *)

Section SanitizeProps.

Variable str_lower : pystr -> pystr.
Variables md_root_str db_path_str : pystr.

Lemma sanitize_loop_cases kws msg :
  (sanitize_loop str_lower kws msg = generic_error_message /\
   exists k, In k kws /\ contains (str_lower k) (str_lower msg) = true) \/
  (sanitize_loop str_lower kws msg = msg /\
   forall k, In k kws -> contains (str_lower k) (str_lower msg) = false).
Proof.
  induction kws as [|k kws IH]; simpl.
  - right. split; [reflexivity|intros k []].
  - destruct (contains (str_lower k) (str_lower msg)) eqn:E.
    + left. split; [reflexivity|]. exists k. auto.
    + destruct IH as [[H1 [k' [Hk' Hc]]]|[H1 H2]].
      * left. split; [exact H1|]. exists k'. auto.
      * right. split; [exact H1|]. intros k' [<-|Hk']; [exact E|]. apply H2. exact Hk'.
Qed.

(** In production the returned message mentions no sensitive keyword
    (case-insensitively), as long as the replacement message itself
    mentions none. *)
Theorem sanitize_error_message_hides_keywords (msg : pystr) :
  (forall k, In k (sensitive_keywords md_root_str db_path_str) ->
     contains (str_lower k) (str_lower generic_error_message) = false) ->
  forall k, In k (sensitive_keywords md_root_str db_path_str) ->
  contains (str_lower k) (str_lower (sanitize_error_message str_lower md_root_str db_path_str msg true)) = false.
Proof.
  intros Hgen k Hk. unfold sanitize_error_message. cbn [negb].
  destruct (sanitize_loop_cases (sensitive_keywords md_root_str db_path_str) msg) as [[-> _]|[-> H]].
  - apply Hgen. exact Hk.
  - apply H. exact Hk.
Qed.

End SanitizeProps.

Lemma sanitize_error_message_hides_keywords_witness :
  let root := s2z "/srv/notes" in
  let dbp := s2z "data/md_search.db" in
  let msg := s2z "SQLite error: database is locked" in
  (forall k, In k (sensitive_keywords root dbp) ->
     contains (ascii_lower k) (ascii_lower generic_error_message) = false) /\
  (forall k, In k (sensitive_keywords root dbp) ->
     contains (ascii_lower k)
       (ascii_lower (sanitize_error_message ascii_lower root dbp msg true)) = false).
Proof.
  intros root dbp msg.
  assert (Hgen : forall k, In k (sensitive_keywords root dbp) ->
            contains (ascii_lower k) (ascii_lower generic_error_message) = false).
  { intros k Hk. repeat (destruct Hk as [<-|Hk]; [vm_compute; reflexivity|]). destruct Hk. }
  split; [exact Hgen|].
  exact (sanitize_error_message_hides_keywords ascii_lower root dbp msg Hgen).
Defined.
